(** * Smart Contract Audit Agent: a shallow embedding of [agent.py] and [main.py]

    The development follows the two source files.  Python values are
    modelled as the code has them: a [str] is a sequence of code points, the
    process environment is a finite map, the history file holds a list of
    records, and everything the program does to the outside world (the
    completion endpoint, the wall clock, the mail relay, the page) goes
    through an explicit state with oracles for what the outside answers. *)

From Stdlib Require Import NArith ZArith QArith List String Ascii Bool Lia.
From Stdlib Require Import DecimalString.
From stdpp Require Import base option list gmap strings.

Local Open Scope N_scope.

(** ** Python text *)

Module Py.

(** A [str] is a sequence of Unicode code points.  The text handled by the
    application comes from the text area or from an upload decoded with
    [errors="ignore"], so it is made of scalar values (no lone surrogate). *)
Definition char := N.
Definition str := list char.

(** An ASCII literal of the source, as a [str]. *)
Definition lit (s : string) : str :=
  map N_of_ascii (list_ascii_of_string s).

(** Truth value of a string, of an integer. *)
Definition truthy (s : str) : bool :=
  match s with [] => false | _ => true end.

Definition truthy_int (n : Z) : bool := negb (n =? 0)%Z.

(** [x or d] on strings. *)
Definition or_else (x d : str) : str := if truthy x then x else d.

(** [str.isspace] on one code point: the characters [str.strip()] removes. *)
Definition is_space (c : char) : bool :=
  ((9 <=? c) && (c <=? 13)) || ((28 <=? c) && (c <=? 32))
  || (c =? 133) || (c =? 160) || (c =? 5760)
  || ((8192 <=? c) && (c <=? 8202))
  || (c =? 8232) || (c =? 8233) || (c =? 8239) || (c =? 8287) || (c =? 12288).

(** Line boundaries of [str.splitlines], the pair CR LF apart. *)
Definition is_linebreak (c : char) : bool :=
  ((10 <=? c) && (c <=? 13)) || ((28 <=? c) && (c <=? 30))
  || (c =? 133) || (c =? 8232) || (c =? 8233).

Fixpoint lstrip_by (p : char -> bool) (s : str) : str :=
  match s with
  | c :: rest => if p c then lstrip_by p rest else s
  | [] => []
  end.

Definition rstrip_by (p : char -> bool) (s : str) : str :=
  rev (lstrip_by p (rev s)).

Definition strip_by (p : char -> bool) (s : str) : str :=
  rstrip_by p (lstrip_by p s).

(** [s.strip()] *)
Definition strip (s : str) : str := strip_by is_space s.

(** [s.strip(chars)] *)
Definition strip_chars (chars : str) (s : str) : str :=
  strip_by (fun c => existsb (N.eqb c) chars) s.

(** [s.splitlines()]: [line] is the line being read. *)
Fixpoint splitlines_from (line : str) (s : str) : list str :=
  match s with
  | [] => if truthy line then [line] else []
  | c :: rest =>
      if c =? 13 then
        match rest with
        | 10 :: rest' => line :: splitlines_from [] rest'
        | _ => line :: splitlines_from [] rest
        end
      else if is_linebreak c then line :: splitlines_from [] rest
      else splitlines_from (line ++ [c]) rest
  end.

Definition splitlines (s : str) : list str := splitlines_from [] s.

(** [s.replace(old, new)] for a pattern [old] of one character. *)
Definition replace_char (old : char) (new : str) (s : str) : str :=
  flat_map (fun c => if c =? old then new else [c]) s.

(** [s.startswith(p)] *)
Fixpoint startswith (s p : str) : bool :=
  match p, s with
  | [], _ => true
  | x :: p', y :: s' => (x =? y) && startswith s' p'
  | _ :: _, [] => false
  end.

(** [s.encode("utf-8")] on a text of scalar values.  On a lone surrogate
    CPython raises [UnicodeEncodeError]; such a text is outside the texts
    the application handles (see [is_scalar] below) and has no case here. *)
Definition to_byte (n : N) : Byte.byte :=
  default Byte.x00 (Byte.of_N (n mod 256)).

Definition encode_char (c : char) : list Byte.byte :=
  if c <? 128 then [to_byte c]
  else if c <? 2048 then
    [to_byte (N.lor 192 (N.shiftr c 6)); to_byte (N.lor 128 (N.land c 63))]
  else if c <? 65536 then
    [to_byte (N.lor 224 (N.shiftr c 12));
     to_byte (N.lor 128 (N.land (N.shiftr c 6) 63));
     to_byte (N.lor 128 (N.land c 63))]
  else
    [to_byte (N.lor 240 (N.shiftr c 18));
     to_byte (N.lor 128 (N.land (N.shiftr c 12) 63));
     to_byte (N.lor 128 (N.land (N.shiftr c 6) 63));
     to_byte (N.lor 128 (N.land c 63))].

Definition encode_utf8 (s : str) : list Byte.byte := flat_map encode_char s.

(** Exceptions, by the class the handlers of the source tell apart.  All of
    them derive from [Exception]. *)
Inductive exc_class :=
  | OpenAIError | ValueError | IndexError | AttributeError
  | SMTPServerDisconnected | OtherException.

Record exc := { exc_cls : exc_class; exc_msg : str }.

Definition is_OpenAIError (e : exc) : bool :=
  match exc_cls e with OpenAIError => true | _ => false end.

Definition is_SMTPServerDisconnected (e : exc) : bool :=
  match exc_cls e with SMTPServerDisconnected => true | _ => false end.

(** What a call does: it returns a value or raises. *)
Inductive outcome (A : Type) :=
  | Ret (a : A)
  | Raise (e : exc).
Arguments Ret {A} a.
Arguments Raise {A} e.

#[export] Instance outcome_ret : MRet outcome := @Ret.
#[export] Instance outcome_bind : MBind outcome := fun A B k m =>
  match m with
  | Ret a => k a
  | Raise e => Raise e
  end.

(** *** The Unicode database of CPython 3.11 (Unicode 14.0.0)

    Two tables of it are used: the runs of decimal digits past ASCII, each a
    whole number of tens starting at a zero, and the runs of code points past
    ASCII that [str.isprintable] refuses. *)
Definition decimal_runs : list (N * N) :=
  [
   (1632, 1641); (1776, 1785); (1984, 1993); (2406, 2415); (2534, 2543);
   (2662, 2671); (2790, 2799); (2918, 2927); (3046, 3055); (3174, 3183);
   (3302, 3311); (3430, 3439); (3558, 3567); (3664, 3673); (3792, 3801);
   (3872, 3881); (4160, 4169); (4240, 4249); (6112, 6121); (6160, 6169);
   (6470, 6479); (6608, 6617); (6784, 6793); (6800, 6809); (6992, 7001);
   (7088, 7097); (7232, 7241); (7248, 7257); (42528, 42537); (43216, 43225);
   (43264, 43273); (43472, 43481); (43504, 43513); (43600, 43609);
   (44016, 44025); (65296, 65305); (66720, 66729); (68912, 68921);
   (69734, 69743); (69872, 69881); (69942, 69951); (70096, 70105);
   (70384, 70393); (70736, 70745); (70864, 70873); (71248, 71257);
   (71360, 71369); (71472, 71481); (71904, 71913); (72016, 72025);
   (72784, 72793); (73040, 73049); (73120, 73129); (92768, 92777);
   (92864, 92873); (93008, 93017); (120782, 120831); (123200, 123209);
   (123632, 123641); (125264, 125273); (130032, 130041) ].

Definition nonprintable_runs : list (N * N) :=
  [
   (128, 160); (173, 173); (888, 889); (896, 899); (907, 907); (909, 909);
   (930, 930); (1328, 1328); (1367, 1368); (1419, 1420); (1424, 1424);
   (1480, 1487); (1515, 1518); (1525, 1541); (1564, 1564); (1757, 1757);
   (1806, 1807); (1867, 1868); (1970, 1983); (2043, 2044); (2094, 2095);
   (2111, 2111); (2140, 2141); (2143, 2143); (2155, 2159); (2191, 2199);
   (2274, 2274); (2436, 2436); (2445, 2446); (2449, 2450); (2473, 2473);
   (2481, 2481); (2483, 2485); (2490, 2491); (2501, 2502); (2505, 2506);
   (2511, 2518); (2520, 2523); (2526, 2526); (2532, 2533); (2559, 2560);
   (2564, 2564); (2571, 2574); (2577, 2578); (2601, 2601); (2609, 2609);
   (2612, 2612); (2615, 2615); (2618, 2619); (2621, 2621); (2627, 2630);
   (2633, 2634); (2638, 2640); (2642, 2648); (2653, 2653); (2655, 2661);
   (2679, 2688); (2692, 2692); (2702, 2702); (2706, 2706); (2729, 2729);
   (2737, 2737); (2740, 2740); (2746, 2747); (2758, 2758); (2762, 2762);
   (2766, 2767); (2769, 2783); (2788, 2789); (2802, 2808); (2816, 2816);
   (2820, 2820); (2829, 2830); (2833, 2834); (2857, 2857); (2865, 2865);
   (2868, 2868); (2874, 2875); (2885, 2886); (2889, 2890); (2894, 2900);
   (2904, 2907); (2910, 2910); (2916, 2917); (2936, 2945); (2948, 2948);
   (2955, 2957); (2961, 2961); (2966, 2968); (2971, 2971); (2973, 2973);
   (2976, 2978); (2981, 2983); (2987, 2989); (3002, 3005); (3011, 3013);
   (3017, 3017); (3022, 3023); (3025, 3030); (3032, 3045); (3067, 3071);
   (3085, 3085); (3089, 3089); (3113, 3113); (3130, 3131); (3141, 3141);
   (3145, 3145); (3150, 3156); (3159, 3159); (3163, 3164); (3166, 3167);
   (3172, 3173); (3184, 3190); (3213, 3213); (3217, 3217); (3241, 3241);
   (3252, 3252); (3258, 3259); (3269, 3269); (3273, 3273); (3278, 3284);
   (3287, 3292); (3295, 3295); (3300, 3301); (3312, 3312); (3315, 3327);
   (3341, 3341); (3345, 3345); (3397, 3397); (3401, 3401); (3408, 3411);
   (3428, 3429); (3456, 3456); (3460, 3460); (3479, 3481); (3506, 3506);
   (3516, 3516); (3518, 3519); (3527, 3529); (3531, 3534); (3541, 3541);
   (3543, 3543); (3552, 3557); (3568, 3569); (3573, 3584); (3643, 3646);
   (3676, 3712); (3715, 3715); (3717, 3717); (3723, 3723); (3748, 3748);
   (3750, 3750); (3774, 3775); (3781, 3781); (3783, 3783); (3790, 3791);
   (3802, 3803); (3808, 3839); (3912, 3912); (3949, 3952); (3992, 3992);
   (4029, 4029); (4045, 4045); (4059, 4095); (4294, 4294); (4296, 4300);
   (4302, 4303); (4681, 4681); (4686, 4687); (4695, 4695); (4697, 4697);
   (4702, 4703); (4745, 4745); (4750, 4751); (4785, 4785); (4790, 4791);
   (4799, 4799); (4801, 4801); (4806, 4807); (4823, 4823); (4881, 4881);
   (4886, 4887); (4955, 4956); (4989, 4991); (5018, 5023); (5110, 5111);
   (5118, 5119); (5760, 5760); (5789, 5791); (5881, 5887); (5910, 5918);
   (5943, 5951); (5972, 5983); (5997, 5997); (6001, 6001); (6004, 6015);
   (6110, 6111); (6122, 6127); (6138, 6143); (6158, 6158); (6170, 6175);
   (6265, 6271); (6315, 6319); (6390, 6399); (6431, 6431); (6444, 6447);
   (6460, 6463); (6465, 6467); (6510, 6511); (6517, 6527); (6572, 6575);
   (6602, 6607); (6619, 6621); (6684, 6685); (6751, 6751); (6781, 6782);
   (6794, 6799); (6810, 6815); (6830, 6831); (6863, 6911); (6989, 6991);
   (7039, 7039); (7156, 7163); (7224, 7226); (7242, 7244); (7305, 7311);
   (7355, 7356); (7368, 7375); (7419, 7423); (7958, 7959); (7966, 7967);
   (8006, 8007); (8014, 8015); (8024, 8024); (8026, 8026); (8028, 8028);
   (8030, 8030); (8062, 8063); (8117, 8117); (8133, 8133); (8148, 8149);
   (8156, 8156); (8176, 8177); (8181, 8181); (8191, 8207); (8232, 8239);
   (8287, 8303); (8306, 8307); (8335, 8335); (8349, 8351); (8385, 8399);
   (8433, 8447); (8588, 8591); (9255, 9279); (9291, 9311); (11124, 11125);
   (11158, 11158); (11508, 11512); (11558, 11558); (11560, 11564);
   (11566, 11567); (11624, 11630); (11633, 11646); (11671, 11679);
   (11687, 11687); (11695, 11695); (11703, 11703); (11711, 11711);
   (11719, 11719); (11727, 11727); (11735, 11735); (11743, 11743);
   (11870, 11903); (11930, 11930); (12020, 12031); (12246, 12271);
   (12284, 12288); (12352, 12352); (12439, 12440); (12544, 12548);
   (12592, 12592); (12687, 12687); (12772, 12783); (12831, 12831);
   (42125, 42127); (42183, 42191); (42540, 42559); (42744, 42751);
   (42955, 42959); (42962, 42962); (42964, 42964); (42970, 42993);
   (43053, 43055); (43066, 43071); (43128, 43135); (43206, 43213);
   (43226, 43231); (43348, 43358); (43389, 43391); (43470, 43470);
   (43482, 43485); (43519, 43519); (43575, 43583); (43598, 43599);
   (43610, 43611); (43715, 43738); (43767, 43776); (43783, 43784);
   (43791, 43792); (43799, 43807); (43815, 43815); (43823, 43823);
   (43884, 43887); (44014, 44015); (44026, 44031); (55204, 55215);
   (55239, 55242); (55292, 63743); (64110, 64111); (64218, 64255);
   (64263, 64274); (64280, 64284); (64311, 64311); (64317, 64317);
   (64319, 64319); (64322, 64322); (64325, 64325); (64451, 64466);
   (64912, 64913); (64968, 64974); (64976, 65007); (65050, 65055);
   (65107, 65107); (65127, 65127); (65132, 65135); (65141, 65141);
   (65277, 65280); (65471, 65473); (65480, 65481); (65488, 65489);
   (65496, 65497); (65501, 65503); (65511, 65511); (65519, 65531);
   (65534, 65535); (65548, 65548); (65575, 65575); (65595, 65595);
   (65598, 65598); (65614, 65615); (65630, 65663); (65787, 65791);
   (65795, 65798); (65844, 65846); (65935, 65935); (65949, 65951);
   (65953, 65999); (66046, 66175); (66205, 66207); (66257, 66271);
   (66300, 66303); (66340, 66348); (66379, 66383); (66427, 66431);
   (66462, 66462); (66500, 66503); (66518, 66559); (66718, 66719);
   (66730, 66735); (66772, 66775); (66812, 66815); (66856, 66863);
   (66916, 66926); (66939, 66939); (66955, 66955); (66963, 66963);
   (66966, 66966); (66978, 66978); (66994, 66994); (67002, 67002);
   (67005, 67071); (67383, 67391); (67414, 67423); (67432, 67455);
   (67462, 67462); (67505, 67505); (67515, 67583); (67590, 67591);
   (67593, 67593); (67638, 67638); (67641, 67643); (67645, 67646);
   (67670, 67670); (67743, 67750); (67760, 67807); (67827, 67827);
   (67830, 67834); (67868, 67870); (67898, 67902); (67904, 67967);
   (68024, 68027); (68048, 68049); (68100, 68100); (68103, 68107);
   (68116, 68116); (68120, 68120); (68150, 68151); (68155, 68158);
   (68169, 68175); (68185, 68191); (68256, 68287); (68327, 68330);
   (68343, 68351); (68406, 68408); (68438, 68439); (68467, 68471);
   (68498, 68504); (68509, 68520); (68528, 68607); (68681, 68735);
   (68787, 68799); (68851, 68857); (68904, 68911); (68922, 69215);
   (69247, 69247); (69290, 69290); (69294, 69295); (69298, 69375);
   (69416, 69423); (69466, 69487); (69514, 69551); (69580, 69599);
   (69623, 69631); (69710, 69713); (69750, 69758); (69821, 69821);
   (69827, 69839); (69865, 69871); (69882, 69887); (69941, 69941);
   (69960, 69967); (70007, 70015); (70112, 70112); (70133, 70143);
   (70162, 70162); (70207, 70271); (70279, 70279); (70281, 70281);
   (70286, 70286); (70302, 70302); (70314, 70319); (70379, 70383);
   (70394, 70399); (70404, 70404); (70413, 70414); (70417, 70418);
   (70441, 70441); (70449, 70449); (70452, 70452); (70458, 70458);
   (70469, 70470); (70473, 70474); (70478, 70479); (70481, 70486);
   (70488, 70492); (70500, 70501); (70509, 70511); (70517, 70655);
   (70748, 70748); (70754, 70783); (70856, 70863); (70874, 71039);
   (71094, 71095); (71134, 71167); (71237, 71247); (71258, 71263);
   (71277, 71295); (71354, 71359); (71370, 71423); (71451, 71452);
   (71468, 71471); (71495, 71679); (71740, 71839); (71923, 71934);
   (71943, 71944); (71946, 71947); (71956, 71956); (71959, 71959);
   (71990, 71990); (71993, 71994); (72007, 72015); (72026, 72095);
   (72104, 72105); (72152, 72153); (72165, 72191); (72264, 72271);
   (72355, 72367); (72441, 72703); (72713, 72713); (72759, 72759);
   (72774, 72783); (72813, 72815); (72848, 72849); (72872, 72872);
   (72887, 72959); (72967, 72967); (72970, 72970); (73015, 73017);
   (73019, 73019); (73022, 73022); (73032, 73039); (73050, 73055);
   (73062, 73062); (73065, 73065); (73103, 73103); (73106, 73106);
   (73113, 73119); (73130, 73439); (73465, 73647); (73649, 73663);
   (73714, 73726); (74650, 74751); (74863, 74863); (74869, 74879);
   (75076, 77711); (77811, 77823); (78895, 82943); (83527, 92159);
   (92729, 92735); (92767, 92767); (92778, 92781); (92863, 92863);
   (92874, 92879); (92910, 92911); (92918, 92927); (92998, 93007);
   (93018, 93018); (93026, 93026); (93048, 93052); (93072, 93759);
   (93851, 93951); (94027, 94030); (94088, 94094); (94112, 94175);
   (94181, 94191); (94194, 94207); (100344, 100351); (101590, 101631);
   (101641, 110575); (110580, 110580); (110588, 110588); (110591, 110591);
   (110883, 110927); (110931, 110947); (110952, 110959); (111356, 113663);
   (113771, 113775); (113789, 113791); (113801, 113807); (113818, 113819);
   (113824, 118527); (118574, 118575); (118599, 118607); (118724, 118783);
   (119030, 119039); (119079, 119080); (119155, 119162); (119275, 119295);
   (119366, 119519); (119540, 119551); (119639, 119647); (119673, 119807);
   (119893, 119893); (119965, 119965); (119968, 119969); (119971, 119972);
   (119975, 119976); (119981, 119981); (119994, 119994); (119996, 119996);
   (120004, 120004); (120070, 120070); (120075, 120076); (120085, 120085);
   (120093, 120093); (120122, 120122); (120127, 120127); (120133, 120133);
   (120135, 120137); (120145, 120145); (120486, 120487); (120780, 120781);
   (121484, 121498); (121504, 121504); (121520, 122623); (122655, 122879);
   (122887, 122887); (122905, 122906); (122914, 122914); (122917, 122917);
   (122923, 123135); (123181, 123183); (123198, 123199); (123210, 123213);
   (123216, 123535); (123567, 123583); (123642, 123646); (123648, 124895);
   (124903, 124903); (124908, 124908); (124911, 124911); (124927, 124927);
   (125125, 125126); (125143, 125183); (125260, 125263); (125274, 125277);
   (125280, 126064); (126133, 126208); (126270, 126463); (126468, 126468);
   (126496, 126496); (126499, 126499); (126501, 126502); (126504, 126504);
   (126515, 126515); (126520, 126520); (126522, 126522); (126524, 126529);
   (126531, 126534); (126536, 126536); (126538, 126538); (126540, 126540);
   (126544, 126544); (126547, 126547); (126549, 126550); (126552, 126552);
   (126554, 126554); (126556, 126556); (126558, 126558); (126560, 126560);
   (126563, 126563); (126565, 126566); (126571, 126571); (126579, 126579);
   (126584, 126584); (126589, 126589); (126591, 126591); (126602, 126602);
   (126620, 126624); (126628, 126628); (126634, 126634); (126652, 126703);
   (126706, 126975); (127020, 127023); (127124, 127135); (127151, 127152);
   (127168, 127168); (127184, 127184); (127222, 127231); (127406, 127461);
   (127491, 127503); (127548, 127551); (127561, 127567); (127570, 127583);
   (127590, 127743); (128728, 128732); (128749, 128751); (128765, 128767);
   (128884, 128895); (128985, 128991); (129004, 129007); (129009, 129023);
   (129036, 129039); (129096, 129103); (129114, 129119); (129160, 129167);
   (129198, 129199); (129202, 129279); (129620, 129631); (129646, 129647);
   (129653, 129655); (129661, 129663); (129671, 129679); (129709, 129711);
   (129723, 129727); (129734, 129743); (129754, 129759); (129768, 129775);
   (129783, 129791); (129939, 129939); (129995, 130031); (130042, 131071);
   (173792, 173823); (177977, 177983); (178206, 178207); (183970, 183983);
   (191457, 194559); (195102, 196607); (201547, 917759); (918000, 1114111) ].

Definition in_runs (runs : list (N * N)) (c : char) : bool :=
  existsb (fun r => (fst r <=? c) && (c <=? snd r)) runs.

(** The value of a decimal digit past ASCII. *)
Definition unicode_decimal (c : char) : option N :=
  (fun r => (c - fst r) mod 10)
  <$> find (fun r => (fst r <=? c) && (c <=? snd r)) decimal_runs.

(** *** repr(s) *)

Definition hex_digit (n : N) : char := if n <? 10 then 48 + n else 87 + n.

(** [width] lower-case hexadecimal digits of [c]. *)
Definition hex_fixed (width : nat) (c : N) : str :=
  map (fun i => hex_digit (N.land (N.shiftr c (4 * N.of_nat i)) 15))
      (rev (seq 0 width)).

Definition repr_char (quote : char) (c : char) : str :=
  if (c =? quote) || (c =? 92) then [92; c]
  else if c =? 9 then [92; 116]
  else if c =? 10 then [92; 110]
  else if c =? 13 then [92; 114]
  else if (c <? 32) || (c =? 127) then [92; 120] ++ hex_fixed 2 c
  else if c <? 127 then [c]
  else if in_runs nonprintable_runs c then
    if c <=? 255 then [92; 120] ++ hex_fixed 2 c
    else if c <=? 65535 then [92; 117] ++ hex_fixed 4 c
    else [92; 85] ++ hex_fixed 8 c
  else [c].

(** Single quotes, unless the text has one and no double quote. *)
Definition repr (s : str) : str :=
  let quote :=
    if existsb (N.eqb 39) s && negb (existsb (N.eqb 34) s) then 34 else 39 in
  [quote] ++ flat_map (repr_char quote) s ++ [quote].

(** *** int(s)

    As CPython reads a [str] in base 10.  The text is first brought to ASCII:
    a character below 127 stays, white space becomes a space, a decimal
    digit its ASCII digit, and at any other character the text is cut with a
    question mark in its place.  Then come white space, an optional sign,
    digits with single underscores between them, white space.  More than
    4300 digits are refused (the default limit of the interpreter). *)
Definition is_ascii_space (c : char) : bool :=
  ((9 <=? c) && (c <=? 13)) || (c =? 32).

Definition is_digit (c : char) : bool := (48 <=? c) && (c <=? 57).

Definition ascii_of_char (c : char) : option char :=
  if c <? 127 then Some c
  else if is_space c then Some 32
  else (fun d => 48 + d) <$> unicode_decimal c.

Fixpoint to_ascii (s : str) : str :=
  match s with
  | [] => []
  | c :: rest =>
      match ascii_of_char c with
      | Some a => a :: to_ascii rest
      | None => [63]
      end
  end.

(** The run of digits and underscores at the head of [s]: its value, the
    number of its digits and what follows it; nothing when two underscores
    meet or the run ends in one. *)
Fixpoint scan_digits (acc : Z) (digits : N) (after_underscore : bool) (s : str)
  : option (Z * N * str) :=
  match s with
  | [] => if after_underscore then None else Some (acc, digits, [])
  | c :: rest =>
      if c =? 95 then
        if after_underscore then None else scan_digits acc digits true rest
      else if is_digit c then
        scan_digits (10 * acc + Z.of_N (c - 48))%Z (digits + 1) false rest
      else if after_underscore then None
      else Some (acc, digits, s)
  end.

Inductive int_reading :=
  | Reads (n : Z)
  | Invalid
  | TooLong (digits : N).

Definition read_int (s : str) : int_reading :=
  let body := lstrip_by is_ascii_space (to_ascii s) in
  let '(neg, ds) :=
    match body with
    | 45 :: ds => (true, ds)
    | 43 :: ds => (false, ds)
    | _ => (false, body)
    end in
  match ds with
  | 95 :: _ => Invalid
  | _ =>
      match scan_digits 0 0 false ds with
      | None => Invalid
      | Some (n, digits, rest) =>
          if 4300 <? digits then TooLong digits
          else if digits =? 0 then Invalid
          else if forallb is_ascii_space rest
          then Reads (if neg : bool then (- n)%Z else n)
          else Invalid
      end
  end.

Definition int_literal (s : str) : option Z :=
  match read_int s with Reads n => Some n | _ => None end.

Definition int (s : str) : outcome Z :=
  match read_int s with
  | Reads n => Ret n
  | Invalid =>
      Raise {| exc_cls := ValueError;
               exc_msg := lit "invalid literal for int() with base 10: "
                            ++ take 200 (repr s) |}
  | TooLong digits =>
      Raise {| exc_cls := ValueError;
               exc_msg :=
                 lit "Exceeds the limit (4300 digits) for integer string conversion: value has "
                 ++ lit (NilEmpty.string_of_uint (N.to_uint digits))
                 ++ lit " digits; use sys.set_int_max_str_digits() to increase the limit" |}
  end.

End Py.

(** ** hashlib.sha256 *)

Module Sha256.

Definition mask32 : N := 4294967295.

Definition add32 (a b : N) : N := N.land (a + b) mask32.
Definition rotr (n x : N) : N :=
  N.lor (N.shiftr x n) (N.land (N.shiftl x (32 - n)) mask32).
Definition shr (n x : N) : N := N.shiftr x n.
Definition not32 (x : N) : N := N.lxor x mask32.

Definition Ch (x y z : N) : N := N.lxor (N.land x y) (N.land (not32 x) z).
Definition Maj (x y z : N) : N :=
  N.lxor (N.lxor (N.land x y) (N.land x z)) (N.land y z).
Definition Sigma0 (x : N) : N := N.lxor (N.lxor (rotr 2 x) (rotr 13 x)) (rotr 22 x).
Definition Sigma1 (x : N) : N := N.lxor (N.lxor (rotr 6 x) (rotr 11 x)) (rotr 25 x).
Definition sigma0 (x : N) : N := N.lxor (N.lxor (rotr 7 x) (rotr 18 x)) (shr 3 x).
Definition sigma1 (x : N) : N := N.lxor (N.lxor (rotr 17 x) (rotr 19 x)) (shr 10 x).

(** The round constants are the first 32 bits of the fractional parts of the
    cube roots of the first 64 primes, the initial words those of the square
    roots of the first 8. *)
Definition is_prime (n : N) : bool :=
  (1 <? n)
  && forallb (fun d => negb (n mod N.of_nat d =? 0)) (seq 2 (N.to_nat n - 2)).

Definition primes_to_311 : list N :=
  filter (fun n => is_prime n = true) (map N.of_nat (seq 2 310)).

(** The largest [r] below [2 ^ bits] with [r * r * r <= n], from [r = 0]. *)
Fixpoint cube_root (bits : nat) (n r : N) : N :=
  match bits with
  | O => r
  | S b =>
      let c := r + N.shiftl 1 (N.of_nat b) in
      cube_root b n (if c * c * c <=? n then c else r)
  end.

Definition cbrt_frac32 (p : N) : N :=
  N.land (cube_root 35 (N.shiftl p 96) 0) mask32.

Definition sqrt_frac32 (p : N) : N :=
  N.land (N.sqrt (N.shiftl p 64)) mask32.

Definition K : list N := Eval vm_compute in map cbrt_frac32 primes_to_311.

(** The eight working words. *)
Definition state : Type := N * N * N * N * N * N * N * N.

Definition H0 : state :=
  Eval vm_compute in
  match map sqrt_frac32 (take 8 primes_to_311) with
  | [a; b; c; d; e; f; g; h] => (a, b, c, d, e, f, g, h)
  | _ => (0, 0, 0, 0, 0, 0, 0, 0)
  end.

(** Padding: a one bit, zeros up to 56 modulo 64, the bit length on 8 bytes. *)
Definition be_bytes (width : nat) (n : N) : list N :=
  map (fun i => N.land (N.shiftr n (8 * N.of_nat i)) 255) (rev (seq 0 width)).

Definition pad (msg : list N) : list N :=
  let len := N.of_nat (length msg) in
  let zeros := N.to_nat ((64 + 55 - len mod 64) mod 64) in
  msg ++ [128] ++ repeat 0 zeros ++ be_bytes 8 (8 * len).

Fixpoint words_of (n : nat) (bs : list N) : list N :=
  match n, bs with
  | S n', a :: b :: c :: d :: rest =>
      (N.shiftl a 24 + N.shiftl b 16 + N.shiftl c 8 + d) :: words_of n' rest
  | _, _ => []
  end.

(** Message schedule: [w] holds W(t-1), W(t-2), ... newest first. *)
Fixpoint extend (n : nat) (w : list N) : list N :=
  match n with
  | O => w
  | S n' =>
      let wt := add32 (add32 (sigma1 (nth 1 w 0)) (nth 6 w 0))
                      (add32 (sigma0 (nth 14 w 0)) (nth 15 w 0)) in
      extend n' (wt :: w)
  end.

Definition schedule (block : list N) : list N :=
  rev (extend 48 (rev (words_of 16 block))).

Definition round (s : state) (kw : N * N) : state :=
  let '(a, b, c, d, e, f, g, h) := s in
  let t1 := add32 (add32 (add32 h (Sigma1 e)) (add32 (Ch e f g) (fst kw))) (snd kw) in
  let t2 := add32 (Sigma0 a) (Maj a b c) in
  (add32 t1 t2, a, b, c, add32 d t1, e, f, g).

Definition compress (s : state) (block : list N) : state :=
  let '(a, b, c, d, e, f, g, h) := s in
  let '(a', b', c', d', e', f', g', h') :=
    fold_left round (combine K (schedule block)) s in
  (add32 a a', add32 b b', add32 c c', add32 d d',
   add32 e e', add32 f f', add32 g g', add32 h h').

Fixpoint blocks (n : nat) (s : state) (bs : list N) : state :=
  match n with
  | O => s
  | S n' => blocks n' (compress s (take 64 bs)) (drop 64 bs)
  end.

Definition sha256 (msg : list Byte.byte) : state :=
  let padded := pad (map Byte.to_N msg) in
  blocks (length padded / 64)%nat H0 padded.

(** [.hexdigest()] *)
Definition hexdigit (n : N) : Py.char :=
  if n <? 10 then 48 + n else 87 + n.

Definition hex8 (w : N) : Py.str :=
  [hexdigit (N.land (N.shiftr w 28) 15); hexdigit (N.land (N.shiftr w 24) 15);
   hexdigit (N.land (N.shiftr w 20) 15); hexdigit (N.land (N.shiftr w 16) 15);
   hexdigit (N.land (N.shiftr w 12) 15); hexdigit (N.land (N.shiftr w 8) 15);
   hexdigit (N.land (N.shiftr w 4) 15); hexdigit (N.land w 15)].

Definition hexdigest (s : state) : Py.str :=
  let '(a, b, c, d, e, f, g, h) := s in
  hex8 a ++ hex8 b ++ hex8 c ++ hex8 d ++ hex8 e ++ hex8 f ++ hex8 g ++ hex8 h.

End Sha256.

(** ** agent.py *)

Module Agent.
Import Py.

(** One request to the chat-completion endpoint, and what comes back:
    [choices[i].message.content] is a string or [None]. *)
Record chat_message := { role : str; content : str }.

Record request := {
  model : str;
  messages : list chat_message;
  temperature : Q;
  max_tokens : Z
}.

Record response := { choices : list (option str) }.

(** Each text line of a template, followed by its newline. *)
Definition unlines (ls : list str) : str := flat_map (fun l => l ++ [10]) ls.

Definition audit_prompt (code : str) : str :=
  [10] ++ unlines
  [ lit "You are a professional smart contract auditor with strong expertise in Solidity and blockchain security.";
    [];
    lit "Analyze the following Solidity smart contract and produce a concise, structured markdown report with three sections:";
    lit "1. **Security Vulnerabilities** (enumerate issues, include SWC IDs if relevant)";
    lit "2. **Gas Optimization Opportunities**";
    lit "3. **Code Quality Improvements**";
    [];
    lit "For every issue, include:";
    lit "- A short description";
    lit "- Why it matters";
    lit "- A concrete fix or code snippet (when helpful)";
    [];
    lit "Prefer modern best practices for Solidity ^0.8.x:";
    lit "- Checks-Effects-Interactions";
    lit "- `call{value: ...}(" ++ [34; 34]
      ++ lit ")` with boolean check (do not recommend `.transfer` as a blanket fix)";
    lit "- Consider `ReentrancyGuard` from OpenZeppelin where applicable";
    lit "- Emit events for critical state changes";
    [];
    lit "Smart Contract:";
    lit "```solidity";
    code;
    lit "```" ].

Definition simplify_prompt (audit_text audience : str) : str :=
  [10] ++ unlines
  [ lit "You are a helpful teacher explaining smart contract security to a "
      ++ audience ++ lit ".";
    lit "Rewrite the following audit in clear, simple language:";
    [];
    lit "Guidelines:";
    lit "- Keep structure (headings / bullets) where it helps readability";
    lit "- Avoid heavy jargon; define unavoidable terms briefly";
    lit "- Be concise and friendly";
    [];
    lit "Audit to simplify:";
    audit_text ].

(** The failure marker of [audit_contract]: the cross mark U+274C. *)
Definition failure_marker : str := [10060].

(** [resp.choices[0].message.content.strip()] *)
Definition first_content (r : response) : outcome str :=
  match choices r with
  | [] => Raise {| exc_cls := IndexError; exc_msg := lit "list index out of range" |}
  | None :: _ =>
      Raise {| exc_cls := AttributeError;
               exc_msg := lit "'NoneType' object has no attribute 'strip'" |}
  | Some text :: _ => Ret (strip text)
  end.

Section Client.

(** The remote endpoint: what the [n]-th call of the process answers to a
    request.  [calls] is the list of requests sent so far, oldest first. *)
Variable endpoint : nat -> request -> outcome response.

Definition create (req : request) (calls : list request)
  : outcome response * list request :=
  (endpoint (length calls) req, calls ++ [req]).

Definition audit_contract (code model : str) (temperature : Q) (max_tokens : Z)
    (calls : list request) : str * list request :=
  let prompt := audit_prompt code in
  let '(resp, calls') :=
    create {| model := model;
              messages := [ {| role := lit "user"; content := prompt |} ];
              temperature := temperature;
              max_tokens := max_tokens |} calls in
  match resp ≫= first_content with
  | Ret text => (text, calls')
  | Raise e =>
      if is_OpenAIError e
      then (failure_marker ++ lit " Audit failed: " ++ exc_msg e, calls')
      else (failure_marker ++ lit " Unexpected error: " ++ exc_msg e, calls')
  end.

Definition explain_audit_simple (audit_text audience model : str)
    (temperature : Q) (max_tokens : Z)
    (calls : list request) : str * list request :=
  let prompt := simplify_prompt audit_text audience in
  let '(resp, calls') :=
    create {| model := model;
              messages := [ {| role := lit "user"; content := prompt |} ];
              temperature := temperature;
              max_tokens := max_tokens |} calls in
  match resp ≫= first_content with
  | Ret text => (text, calls')
  | Raise e =>
      if is_OpenAIError e
      then (lit "Could not generate simple explanation: " ++ exc_msg e, calls')
      else (lit "Unexpected error while simplifying: " ++ exc_msg e, calls')
  end.

End Client.

(** Default arguments of the two functions. *)
Definition audit_defaults : str * Q * Z := (lit "gpt-4", 3 # 10, 1800%Z).
Definition explain_defaults : str * str * Q * Z :=
  (lit "beginner", lit "gpt-4", 3 # 10, 1200%Z).

End Agent.

(** ** main.py *)

Module Main.
Import Py.

(** *** The outside world *)

(** [datetime.datetime]: a naive local date and time. *)
Record datetime := {
  year : N; month : N; day : N;
  hour : N; minute : N; second : N; microsecond : N
}.

(** [%02d] and [%04d] on the ranges of a [datetime]. *)
Definition dec_digit (n : N) : char := 48 + n mod 10.
Definition pad2 (n : N) : str := [dec_digit (n / 10); dec_digit n].
Definition pad4 (n : N) : str :=
  [dec_digit (n / 1000); dec_digit (n / 100); dec_digit (n / 10); dec_digit n].

(** [t.isoformat(timespec="seconds")]: YYYY-MM-DDTHH:MM:SS *)
Definition isoformat_seconds (t : datetime) : str :=
  pad4 (year t) ++ [45] ++ pad2 (month t) ++ [45] ++ pad2 (day t) ++ [84]
  ++ pad2 (hour t) ++ [58] ++ pad2 (minute t) ++ [58] ++ pad2 (second t).

(** The ranges of the fields of a [datetime]. *)
Definition valid_datetime (t : datetime) : Prop :=
  1 <= year t <= 9999 /\ 1 <= month t <= 12 /\ 1 <= day t <= 31 /\
  hour t < 24 /\ minute t < 60 /\ second t < 60 /\ microsecond t < 1000000.

(** One stored audit, the dict built by [add_history_entry]. *)
Record entry := {
  e_id : str;
  e_timestamp : str;
  e_code_hash : str;
  e_code : str;
  e_report : str;
  e_simple_report : str;
  e_title : str
}.

(** What is in [audit_history.json] when it exists: text that [json.load]
    rejects, or an array of records as [json.dump] writes it and [json.load]
    reads it back.  A file holding JSON of another shape, or one that cannot
    be opened, is not a state of the store. *)
Inductive file_content :=
  | Unreadable
  | Json (history : list entry).

(** The message handed to the relay. *)
Record email := {
  msg_from : str;
  msg_to : str;
  msg_subject : str;
  msg_content : str;
  msg_attachment : list Byte.byte;
  msg_filename : str
}.

(** What [smtplib] does on the wire, in order. *)
Inductive smtp_op :=
  | Connect (host : str) (port : Z)
  | StartTLS
  | Login (user pwd : str)
  | SendMessage (m : email)
  | Quit.

(** What the page shows. *)
Inductive ui :=
  | st_warning (s : str)
  | st_info (s : str).

(** The state the program reads and writes. *)
Record world := {
  environ : gmap string str;
  history_file : option file_content;
  clock_reads : nat;
  api_calls : list Agent.request;
  smtp_log : list smtp_op;
  page : list ui
}.

(** What the outside answers: the completion endpoint, the wall clock at its
    [n]-th reading, the relay after the operations attempted so far (the
    last one is the one being attempted), and what building a message
    raises, if anything: the checks of the [email] package on the headers
    and the body, and the encoding of the body, which raises on a lone
    surrogate. *)
Record outside := {
  endpoint : nat -> Agent.request -> outcome Agent.response;
  clock : nat -> datetime;
  relay : list smtp_op -> option exc;
  email_policy : email -> option exc
}.

Definition set_history_file (f : option file_content) (w : world) : world :=
  {| environ := environ w; history_file := f; clock_reads := clock_reads w;
     api_calls := api_calls w; smtp_log := smtp_log w; page := page w |}.

Definition set_clock_reads (n : nat) (w : world) : world :=
  {| environ := environ w; history_file := history_file w; clock_reads := n;
     api_calls := api_calls w; smtp_log := smtp_log w; page := page w |}.

Definition set_api_calls (c : list Agent.request) (w : world) : world :=
  {| environ := environ w; history_file := history_file w;
     clock_reads := clock_reads w;
     api_calls := c; smtp_log := smtp_log w; page := page w |}.

Definition set_smtp_log (l : list smtp_op) (w : world) : world :=
  {| environ := environ w; history_file := history_file w;
     clock_reads := clock_reads w;
     api_calls := api_calls w; smtp_log := l; page := page w |}.

Definition emit (u : ui) (w : world) : world :=
  {| environ := environ w; history_file := history_file w;
     clock_reads := clock_reads w;
     api_calls := api_calls w; smtp_log := smtp_log w; page := page w ++ [u] |}.

(** [st.session_state] *)
Record session := {
  code_text : str;
  report : str;
  simple_report : str;
  audit_done : bool;
  simple_done : bool;
  selected_history_id : str
}.

Definition set_code_text (v : str) (s : session) : session :=
  {| code_text := v; report := report s; simple_report := simple_report s;
     audit_done := audit_done s; simple_done := simple_done s;
     selected_history_id := selected_history_id s |}.

Definition set_report (v : str) (s : session) : session :=
  {| code_text := code_text s; report := v; simple_report := simple_report s;
     audit_done := audit_done s; simple_done := simple_done s;
     selected_history_id := selected_history_id s |}.

Definition set_simple_report (v : str) (s : session) : session :=
  {| code_text := code_text s; report := report s; simple_report := v;
     audit_done := audit_done s; simple_done := simple_done s;
     selected_history_id := selected_history_id s |}.

Definition set_audit_done (v : bool) (s : session) : session :=
  {| code_text := code_text s; report := report s;
     simple_report := simple_report s;
     audit_done := v; simple_done := simple_done s;
     selected_history_id := selected_history_id s |}.

Definition set_simple_done (v : bool) (s : session) : session :=
  {| code_text := code_text s; report := report s;
     simple_report := simple_report s;
     audit_done := audit_done s; simple_done := v;
     selected_history_id := selected_history_id s |}.

Definition session_defaults : session :=
  {| code_text := []; report := []; simple_report := [];
     audit_done := false; simple_done := false; selected_history_id := [] |}.

(** [os.getenv(name, default)] *)
Definition getenv (w : world) (name : string) (dflt : str) : str :=
  default dflt (environ w !! name).

(** *** Audit history helpers *)

(** [_code_hash], on a source text of scalar values; on another one the
    encoding raises and there is no hash. *)
Definition _code_hash (code : str) : str :=
  take 12 (Sha256.hexdigest (Sha256.sha256 (encode_utf8 code))).

(** The loop of [infer_title_from_report] over the lines of the report. *)
Fixpoint first_title (lines : list str) : str :=
  match lines with
  | [] => lit "Audit"
  | line :: rest =>
      let line := strip (strip_chars (lit "# ") line) in
      if truthy line then take 60 line else first_title rest
  end.

Definition infer_title_from_report (report : str) : str :=
  first_title (splitlines (or_else report [])).

Definition load_history (w : world) : list entry :=
  match history_file w with
  | None => []
  | Some Unreadable => []
  | Some (Json history) => history
  end.

Definition save_history (history : list entry) (w : world) : world :=
  set_history_file (Some (Json history)) w.

Definition delete_history_entry (entry_id : str) (w : world) : world :=
  let history := load_history w in
  let history := filter (fun e => e_id e ≠ entry_id) history in
  save_history history w.

(** The Clear All button of the sidebar. *)
Definition clear_all (w : world) : world :=
  match history_file w with
  | Some _ => set_history_file None w
  | None => w
  end.

Section Program.

Variable o : outside.

Definition _now_iso (w : world) : str * world :=
  (isoformat_seconds (clock o (clock_reads w)),
   set_clock_reads (S (clock_reads w)) w).

Definition add_history_entry (code report simple_report : str) (w : world)
  : entry * world :=
  let '(now1, w) := _now_iso w in
  let '(now2, w) := _now_iso w in
  let entry :=
    {| e_id := _code_hash code ++ lit "-" ++ replace_char 58 [] now1;
       e_timestamp := now2;
       e_code_hash := _code_hash code;
       e_code := code;
       e_report := report;
       e_simple_report := or_else simple_report [];
       e_title := infer_title_from_report report |} in
  let history := load_history w in
  let history := entry :: history in
  (entry, save_history history w).

(** *** agent.py, on the world *)

Definition audit_contract (code : str) (w : world) : str * world :=
  let '(model, temperature, max_tokens) := Agent.audit_defaults in
  let '(text, calls) :=
    Agent.audit_contract (endpoint o) code model temperature max_tokens
      (api_calls w) in
  (text, set_api_calls calls w).

Definition explain_audit_simple (audit_text : str) (w : world) : str * world :=
  let '(audience, model, temperature, max_tokens) := Agent.explain_defaults in
  let '(text, calls) :=
    Agent.explain_audit_simple (endpoint o) audit_text audience model
      temperature max_tokens (api_calls w) in
  (text, set_api_calls calls w).

(** *** Email helper *)

(** One operation on the relay: it is logged, then the relay answers. *)
Definition smtp (op : smtp_op) (w : world) : outcome unit * world :=
  let log := smtp_log w ++ [op] in
  (match relay o log with Some e => Raise e | None => Ret tt end,
   set_smtp_log log w).

(** [with smtplib.SMTP(host, port) as s: ...]: the constructor connects; once
    it has, leaving the block sends QUIT.  A relay already gone at QUIT is
    passed over; any other failure of QUIT is the one raised. *)
Definition smtp_session (host : str) (port : Z) (user pwd : str) (m : email)
    (w : world) : outcome unit * world :=
  match smtp (Connect host port) w with
  | (Raise e, w) => (Raise e, w)
  | (Ret _, w) =>
      let '(r, w) :=
        match smtp StartTLS w with
        | (Raise e, w) => (Raise e, w)
        | (Ret _, w) =>
            match smtp (Login user pwd) w with
            | (Raise e, w) => (Raise e, w)
            | (Ret _, w) => smtp (SendMessage m) w
            end
        end in
      match smtp Quit w with
      | (Raise e, w) =>
          if is_SMTPServerDisconnected e then (r, w) else (Raise e, w)
      | (Ret _, w) => (r, w)
      end
  end.

Definition settings_missing : str :=
  lit "SMTP settings missing. Check .env (SMTP_HOST/PORT/USER/PASS).".

(** The [port] of [send_email]: the text of SMTP_PORT, or 587 when the
    variable is unset or empty, read as an integer. *)
Definition port_setting (w : world) : outcome Z :=
  int (or_else (getenv w "SMTP_PORT" (lit "587")) (lit "587")).

Definition send_email (body to_email subject : str) (w : world)
  : outcome str * world :=
  let host := getenv w "SMTP_HOST" [] in
  match port_setting w with
  | Raise e => (Raise e, w)
  | Ret port =>
      let user := getenv w "SMTP_USER" [] in
      let pwd := getenv w "SMTP_PASS" [] in
      if negb (truthy host && truthy_int port && truthy user && truthy pwd)
      then (Ret settings_missing, w)
      else
        let msg :=
          {| msg_from := user; msg_to := to_email; msg_subject := subject;
             msg_content := body;
             msg_attachment := encode_utf8 body;
             msg_filename := lit "audit_report.txt" |} in
        let '(r, w) :=
          match email_policy o msg with
          | Some e => (Raise e, w)
          | None => smtp_session host port user pwd msg w
          end in
        match r with
        | Ret _ => (Ret (lit "sent"), w)
        | Raise e => (Ret (lit "Email error: " ++ exc_msg e), w)
        end
  end.

(** *** Actions *)

(** The Generate Audit button. *)
Definition on_generate (s : session) (w : world) : session * world :=
  if negb (truthy (code_text s)) || (length (strip (code_text s)) <? 10)%nat
  then (s, emit (st_warning (lit "Please upload or paste a Solidity contract.")) w)
  else
    let '(text, w) := audit_contract (code_text s) w in
    let s := set_report text s in
    let s := set_audit_done true s in
    let s := set_simple_report [] s in
    let s := set_simple_done false s in
    let '(_, w) :=
      add_history_entry (code_text s) (report s)
        (or_else (simple_report s) []) w in
    (s, w).

(** The Explain Simply button. *)
Definition on_explain (s : session) (w : world) : session * world :=
  if negb (audit_done s) || negb (truthy (report s))
  then (s, emit (st_info (lit "Generate an audit first.")) w)
  else
    let '(text, w) := explain_audit_simple (report s) w in
    let s := set_simple_report text s in
    let s := set_simple_done true s in
    let '(_, w) :=
      add_history_entry (code_text s) (report s) (simple_report s) w in
    (s, w).

(** The Clear button. *)
Definition on_clear (s : session) : session :=
  let s := set_code_text [] s in
  let s := set_report [] s in
  let s := set_simple_report [] s in
  let s := set_audit_done false s in
  set_simple_done false s.

End Program.

End Main.

(** ** The title, in the words of the specification *)

Module Spec.
Import Py.

(** A line without its heading marks and surrounding white space. *)
Definition heading_trim (line : str) : str :=
  strip (strip_chars (lit "# ") line).

(** The first line of the report that is not empty once trimmed, trimmed. *)
Definition first_nonempty_line (trim : str -> str) (report : str) : option str :=
  head (filter (fun l => l ≠ []) (trim <$> splitlines report)).

End Spec.

(** ** Concrete surroundings used to run the program *)

Module Fixtures.
Import Py Main.

Definition noon : datetime :=
  {| year := 2024; month := 5; day := 17;
     hour := 12; minute := 0; second := 0; microsecond := 0 |}.

Definition sample_report : str :=
  lit "## Security Vulnerabilities" ++ [10] ++ lit "..." ++ [10]
  ++ lit "## Gas Optimization Opportunities" ++ [10] ++ lit "..." ++ [10]
  ++ lit "## Code Quality Improvements" ++ [10] ++ lit "...".

Definition sample_code : str := lit "pragma solidity ^0.8.20; contract C {}".

(** An endpoint that answers every request with the sample report, a clock
    stopped at noon, a relay and an [email] package that accept everything. *)
Definition calm : outside :=
  {| endpoint := fun _ _ => Ret {| Agent.choices := [Some sample_report] |};
     clock := fun _ => noon;
     relay := fun _ => None;
     email_policy := fun _ => None |}.

(** An endpoint that refuses every request. *)
Definition rate_limited : nat -> Agent.request -> outcome Agent.response :=
  fun _ _ => Raise {| exc_cls := OpenAIError; exc_msg := lit "rate limit" |}.

Definition fresh (env : gmap string str) : world :=
  {| environ := env; history_file := None; clock_reads := 0%nat;
     api_calls := []; smtp_log := []; page := [] |}.

(** Relay settings: complete but for the port; none but a malformed port. *)
Definition env_no_port : gmap string str :=
  <["SMTP_HOST" := lit "smtp.example.com"]>
  (<["SMTP_USER" := lit "auditor"]>
  (<["SMTP_PASS" := lit "secret"]> ∅)).

Definition env_no_host : gmap string str :=
  <["SMTP_PORT" := lit "2525"]>
  (<["SMTP_USER" := lit "auditor"]>
  (<["SMTP_PASS" := lit "secret"]> ∅)).

Definition env_bad_port : gmap string str :=
  <["SMTP_PORT" := lit "abc"]> env_no_port.



End Fixtures.

(** ** bytes.decode("utf-8", errors="ignore") *)

Module Codec.
Import Py.

Definition is_continuation (b : N) : bool := (128 <=? b) && (b <=? 191).

(** The second byte of a sequence of three, of four: a continuation byte
    that gives neither an overlong form nor a surrogate nor a code point
    past U+10FFFF. *)
Definition second_of_3 (b0 b1 : N) : bool :=
  is_continuation b1
  && negb ((b0 =? 224) && (b1 <? 160))
  && negb ((b0 =? 237) && (160 <=? b1)).

Definition second_of_4 (b0 b1 : N) : bool :=
  is_continuation b1
  && negb ((b0 =? 240) && (b1 <? 144))
  && negb ((b0 =? 244) && (144 <=? b1)).

(** The decoder.  A byte that cannot start a sequence is dropped; a sequence
    broken by its second, third or fourth byte loses the bytes before the
    breaking one and decoding resumes there; a sequence cut short by the end
    of the data is dropped. *)
Fixpoint decode_bytes (bs : list N) : str :=
  match bs with
  | [] => []
  | b0 :: r0 =>
      if b0 <? 128 then b0 :: decode_bytes r0
      else if b0 <? 194 then decode_bytes r0
      else if b0 <? 224 then
        match r0 with
        | [] => []
        | b1 :: r1 =>
            if is_continuation b1
            then ((b0 - 192) * 64 + (b1 - 128)) :: decode_bytes r1
            else decode_bytes r0
        end
      else if b0 <? 240 then
        match r0 with
        | [] => []
        | b1 :: r1 =>
            if second_of_3 b0 b1 then
              match r1 with
              | [] => []
              | b2 :: r2 =>
                  if is_continuation b2
                  then ((b0 - 224) * 4096 + (b1 - 128) * 64 + (b2 - 128))
                       :: decode_bytes r2
                  else decode_bytes r1
              end
            else decode_bytes r0
        end
      else if b0 <? 245 then
        match r0 with
        | [] => []
        | b1 :: r1 =>
            if second_of_4 b0 b1 then
              match r1 with
              | [] => []
              | b2 :: r2 =>
                  if is_continuation b2 then
                    match r2 with
                    | [] => []
                    | b3 :: r3 =>
                        if is_continuation b3
                        then ((b0 - 240) * 262144 + (b1 - 128) * 4096
                              + (b2 - 128) * 64 + (b3 - 128))
                             :: decode_bytes r3
                        else decode_bytes r2
                    end
                  else decode_bytes r1
              end
            else decode_bytes r0
        end
      else decode_bytes r0
  end.

Definition decode_utf8_ignore (data : list Byte.byte) : str :=
  decode_bytes (map Byte.to_N data).

(** A Unicode scalar value: a code point that is not a surrogate. *)
Definition is_scalar (c : char) : bool :=
  (c <? 1114112) && negb ((55296 <=? c) && (c <=? 57343)).

End Codec.

(** ** main.py: the rest of the page *)

Module Pages.
Import Py Main.

(** *** Session defaults *)

(** [st.session_state] as the mapping it is: the six keys of the program and
    whatever other keys the widgets keep there. *)
Inductive value :=
  | VStr (s : str)
  | VBool (b : bool).

Definition session_default_items : list (string * value) :=
  [ ("code_text", VStr []); ("report", VStr []); ("simple_report", VStr []);
    ("audit_done", VBool false); ("simple_done", VBool false);
    ("selected_history_id", VStr []) ].

(** The loop of lines 24-33 over any list of defaults. *)
Definition fill_defaults (items : list (string * value))
    (state : gmap string value) : gmap string value :=
  foldl (fun st kv =>
           match st !! kv.1 with
           | None => <[kv.1 := kv.2]> st
           | Some _ => st
           end) state items.

Definition init_session_state (state : gmap string value) : gmap string value :=
  fill_defaults session_default_items state.

(** *** What a handler shows besides warnings and notes *)
Inductive notice :=
  | st_success (s : str)
  | st_error (s : str).

(** *** Sidebar *)

(** The label of an entry in the select box; U+2022 is the bullet. *)
Definition history_label (h : entry) : str :=
  e_timestamp h ++ lit " " ++ [8226] ++ lit " " ++ e_title h
  ++ lit " " ++ [8226] ++ lit " " ++ e_code_hash h.

(** [history[idx]] for the index the select box gives. *)
Definition history_at (idx : nat) (w : world) : outcome entry :=
  match load_history w !! idx with
  | Some e => Ret e
  | None =>
      Raise {| exc_cls := IndexError; exc_msg := lit "list index out of range" |}
  end.

(** The Load button: the chosen entry goes into the session. *)
Definition on_load (idx : nat) (s : session) (w : world)
  : outcome (session * notice) :=
  entry ← history_at idx w;
  let s := set_code_text (e_code entry) s in
  let s := set_report (e_report entry) s in
  let s := set_simple_report (e_simple_report entry) s in
  let s := set_audit_done (truthy (report s)) s in
  let s := set_simple_done (truthy (simple_report s)) s in
  Ret (s, st_success (lit "Loaded this audit into the editor.")).


(** *** Upload *)

(** The uploaded file, when there is one, fills an empty editor; reading
    the upload is taken to succeed. *)
Definition on_upload (uploaded : option (list Byte.byte)) (s : session)
  : session :=
  match uploaded with
  | Some data =>
      if negb (truthy (code_text s))
      then set_code_text (Codec.decode_utf8_ignore data) s
      else s
  | None => s
  end.

(** The text area: what it returns becomes the source text of the session
    (line 167), in every run, after the upload and before the buttons.  It
    returns the text the widget holds, or, when it holds none of its own,
    the [value] it was given, which is the source text of the session. *)
Definition on_text_area (typed : option str) (s : session) : session :=
  match typed with
  | Some text => set_code_text text s
  | None => set_code_text (code_text s) s
  end.

(** *** Email form *)

Section Form.

Variable o : outside.

(** The text the form sends and what it says about the choice. *)
Definition email_body (version : str) (s : session) (w : world) : str * world :=
  let body := report s in
  if startswith version (lit "Simplified") && truthy (simple_report s)
  then (simple_report s, w)
  else if startswith version (lit "Simplified")
          && negb (truthy (simple_report s))
  then (body,
        emit (st_info (lit "No simplified version generated yet " ++ [8212]
                       ++ lit " sending original instead.")) w)
  else (body, w).

(** The Send Email button of the form. *)
Definition on_submit_email (to_email subject version : str) (s : session)
    (w : world) : outcome (option notice) * world :=
  if negb (truthy to_email)
  then (Ret None, emit (st_warning (lit "Enter a recipient email.")) w)
  else
    let '(body, w) := email_body version s w in
    match send_email o body to_email subject w with
    | (Raise e, w) => (Raise e, w)
    | (Ret status, w) =>
        if bool_decide (status = lit "sent")
        then (Ret (Some (st_success (lit "Email sent "))), w)
        else (Ret (Some (st_error status)), w)
    end.

End Form.

End Pages.

(** ** More surroundings *)

Module Scenes.
Import Py Main.

(** A clock that moves on by one second at each reading, from 12:00:59. *)
Definition ticking : nat -> datetime := fun n =>
  {| year := 2024; month := 5; day := 17; hour := 12;
     minute := (59 + N.of_nat n) / 60; second := (59 + N.of_nat n) mod 60;
     microsecond := 0 |}.

Definition hurried : outside :=
  {| endpoint := endpoint Fixtures.calm; clock := ticking;
     relay := relay Fixtures.calm; email_policy := email_policy Fixtures.calm |}.


Definition env_full : gmap string str :=
  <["SMTP_PORT" := lit "2525"]> Fixtures.env_no_port.

(** An [email] package that refuses a subject with a line feed in it. *)
Definition strict : outside :=
  {| endpoint := endpoint Fixtures.calm; clock := clock Fixtures.calm;
     relay := relay Fixtures.calm;
     email_policy := fun m =>
       if existsb (N.eqb 10) (msg_subject m)
       then Some {| exc_cls := ValueError;
                    exc_msg := lit "Header values may not contain linefeed or carriage return characters" |}
       else None |}.

End Scenes.

(** ** Notions used to state the properties *)

Module Notions.
Import Py Main.

(** The requests the two functions of agent.py send. *)
Definition audit_request (code model : str) (temperature : Q) (max_tokens : Z)
  : Agent.request :=
  {| Agent.model := model;
     Agent.messages :=
       [ {| Agent.role := lit "user";
            Agent.content := Agent.audit_prompt code |} ];
     Agent.temperature := temperature;
     Agent.max_tokens := max_tokens |}.

Definition simplify_request (audit_text audience model : str) (temperature : Q)
    (max_tokens : Z) : Agent.request :=
  {| Agent.model := model;
     Agent.messages :=
       [ {| Agent.role := lit "user";
            Agent.content := Agent.simplify_prompt audit_text audience |} ];
     Agent.temperature := temperature;
     Agent.max_tokens := max_tokens |}.

(** What the endpoint does with the [n]-th request, content extraction
    included: the text of the first choice, or the failure. *)
Definition reply (endpoint : nat -> Agent.request -> outcome Agent.response)
    (n : nat) (req : Agent.request) : outcome str :=
  endpoint n req ≫= Agent.first_content.

(** The request the Generate Audit button sends for a source text. *)
Definition page_audit_request (code : str) : Agent.request :=
  audit_request code (lit "gpt-4") (3 # 10) 1800%Z.


(** A lower-case hexadecimal digit. *)
Definition is_hex_digit (c : char) : bool :=
  ((48 <=? c) && (c <=? 57)) || ((97 <=? c) && (c <=? 102)).

(** The message [send_email] composes. *)
Definition outgoing (user to_email subject body : str) : email :=
  {| msg_from := user; msg_to := to_email; msg_subject := subject;
     msg_content := body; msg_attachment := encode_utf8 body;
     msg_filename := lit "audit_report.txt" |}.

(** The five operations of a delivery, in order. *)
Definition wire (host : str) (port : Z) (user pwd : str) (m : email)
  : list smtp_op :=
  [Connect host port; StartTLS; Login user pwd; SendMessage m; Quit].

(** The version the email form sends. *)
Definition chosen_version (version : str) (s : session) : str :=
  if startswith version (lit "Simplified") && truthy (simple_report s)
  then simple_report s else report s.

(** All four settings are there. *)
Definition settings_present (w : world) (port : Z) : bool :=
  truthy (getenv w "SMTP_HOST" []) && truthy_int port
  && truthy (getenv w "SMTP_USER" []) && truthy (getenv w "SMTP_PASS" []).

(** The relay lets an operation through when smtplib raises nothing on it,
    and refuses it when smtplib raises.  A message of which the relay
    refuses some recipients and not all is let through in this sense. *)
Definition accepts (o : outside) (log : list smtp_op) : Prop :=
  relay o log = None.

Definition refuses (o : outside) (log : list smtp_op) : Prop :=
  relay o log ≠ None.

(** The guard of the Generate Audit button lets the text through. *)
Definition auditable (code : str) : bool :=
  negb (negb (truthy code) || (length (strip code) <? 10)%nat).

End Notions.

(** ** Properties *)

Import Py Main.

(** *** The primitives on known values *)

Example sha_empty : Sha256.hexdigest (Sha256.sha256 (encode_utf8 (lit ""))) =
  lit "e3b0c44298fc1c149afbf4c8996fb92427ae41e4649b934ca495991b7852b855".
Proof. vm_compute. reflexivity. Qed.

Example sha_abc : Sha256.hexdigest (Sha256.sha256 (encode_utf8 (lit "abc"))) =
  lit "ba7816bf8f01cfea414140de5dae2223b00361a396177a9cb410ff61f20015ad".
Proof. vm_compute. reflexivity. Qed.

Example sha_long : Sha256.hexdigest (Sha256.sha256 (encode_utf8 (repeat 97 64))) =
  lit "ffe054fe7ae0cb6dc65c3af9b61d5209f439851db43d0ba5997337df154668eb".
Proof. vm_compute. reflexivity. Qed.

Example sha_56 : Sha256.hexdigest (Sha256.sha256 (encode_utf8 (repeat 97 56))) =
  lit "b35439a4ac6f0948b6d6f9e3c6af0f5f590ce20f1bde7090ef7970686ec6738a".
Proof. vm_compute. reflexivity. Qed.

Example sha_utf8 : Sha256.hexdigest (Sha256.sha256 (encode_utf8 (concat (repeat [233; 10060] 30)))) =
  lit "6022710e02c30b11bcb04a006938ea62918368e9321f631084428273799d3379".
Proof. vm_compute. reflexivity. Qed.

Example splitlines_mixed :
  splitlines (lit "a" ++ [13; 10] ++ lit "b" ++ [10; 10] ++ lit "c" ++ [10])
  = [lit "a"; lit "b"; []; lit "c"].
Proof. reflexivity. Qed.

Example splitlines_empty : splitlines [] = [] /\ splitlines [10] = [[]].
Proof. split; reflexivity. Qed.

Example strip_chars_keeps_tab :
  strip_chars (lit "# ") ([9] ++ lit "## x #" ++ [9]) = [9] ++ lit "## x #" ++ [9].
Proof. reflexivity. Qed.

Example int_literals :
  int_literal <$> [lit "587"; lit " 587 "; lit "5_8"; lit "-12"; lit "0";
                   lit "abc"; []; lit "5__8"; lit "5_"]
  = [Some 587; Some 587; Some 58; Some (-12); Some 0; None; None; None; None]%Z.
Proof. vm_compute. reflexivity. Qed.

(** The readings of [int] and the texts of [repr], as CPython 3.11 gives
    them. *)
Example int_reads_unicode_digits :
  int [32; 65301; 65304; 65303; 32] = Ret (587)%Z /\
  int [1635; 1636] = Ret (34)%Z /\
  int [1632] = Ret (0)%Z /\
  int [32; 53; 56; 55; 12288] = Ret (587)%Z /\
  int [53; 95; 56; 95; 55] = Ret (587)%Z /\
  int [43; 53; 56; 55] = Ret (587)%Z /\
  int [45; 48] = Ret (0)%Z /\
  int [120782; 120831] = Ret (9)%Z /\
  int [160; 49] = Ret (1)%Z.
Proof. vm_compute. repeat split. Qed.

Example int_refuses :
  Forall (fun s => int_literal s = None)
    [ [53; 95; 95; 56];
      [95; 53];
      [53; 95];
      [28; 53];
      [53; 0];
      [233];
      [53; 233];
      [];
      [43];
      [32; 45; 32; 53];
      [1635; 120] ].
Proof. repeat constructor. Qed.

Example repr_texts :
  repr [97; 98; 99] = [39; 97; 98; 99; 39] /\
  repr [105; 116; 39; 115] = [34; 105; 116; 39; 115; 34] /\
  repr [115; 97; 121; 32; 34; 104; 105; 34] = [39; 115; 97; 121; 32; 34; 104; 105; 34; 39] /\
  repr [97; 39; 98; 34; 99] = [39; 97; 92; 39; 98; 34; 99; 39] /\
  repr [116; 97; 98; 9; 104; 101; 114; 101; 10] = [39; 116; 97; 98; 92; 116; 104; 101; 114; 101; 92; 110; 39] /\
  repr [127; 0] = [39; 92; 120; 55; 102; 92; 120; 48; 48; 39] /\
  repr [8203; 49] = [39; 92; 117; 50; 48; 48; 98; 49; 39] /\
  repr [55296] = [39; 92; 117; 100; 56; 48; 48; 39] /\
  repr [133; 32; 917505; 233; 10060] = [39; 92; 120; 56; 53; 32; 92; 85; 48; 48; 48; 101; 48; 48; 48; 49; 233; 10060; 39] /\
  repr [97; 92; 98] = [39; 97; 92; 92; 98; 39].
Proof. vm_compute. repeat split. Qed.

Example int_error_texts :
  int (lit "5 8")
  = Raise {| exc_cls := ValueError;
             exc_msg := lit "invalid literal for int() with base 10: '5 8'" |}
  /\ int (repeat 49 4301)
     = Raise {| exc_cls := ValueError;
                exc_msg := lit "Exceeds the limit (4300 digits) for integer string conversion: value has 4301 digits; use sys.set_int_max_str_digits() to increase the limit" |}
  /\ bool_decide (is_Some (int_literal (repeat 49 4300))) = true
  /\ int_literal (repeat 49 4300 ++ lit "_") = None
  /\ exc_msg <$> (match int (repeat 39 250) with Raise e => Some e | Ret _ => None end)
     = Some (lit "invalid literal for int() with base 10: " ++ [34] ++ repeat 39 199).
Proof. vm_compute. repeat split. Qed.

Example code_hash_sample : _code_hash Fixtures.sample_code = lit "5a7ed1c6fdc9".
Proof. vm_compute. reflexivity. Qed.

Example isoformat_noon : isoformat_seconds Fixtures.noon = lit "2024-05-17T12:00:00".
Proof. reflexivity. Qed.

(** *** The history store *)

Lemma load_save history w : load_history (save_history history w) = history.
Proof. reflexivity. Qed.


Lemma add_history_entry_load o code report simple w :
  load_history (add_history_entry o code report simple w).2 =
  (add_history_entry o code report simple w).1 :: load_history w.
Proof. reflexivity. Qed.

Lemma all_scalar (s : str) :
  forallb Codec.is_scalar s = true ->
  Forall (fun c => Codec.is_scalar c = true) s.
Proof.
  intros H. apply Forall_forall. intros c Hc.
  apply (proj1 (forallb_forall Codec.is_scalar s) H), list_elem_of_In, Hc.
Qed.



(** C7. Whatever the store held, after the Clear All action the history
    loads as the empty sequence. *)
Theorem clear_all_then_load_empty w : load_history (clear_all w) = [].
Proof.
  unfold clear_all, load_history.
  destruct (history_file w) as [c|] eqn:E; cbn; [reflexivity|].
  rewrite E. reflexivity.
Qed.

(** C8. When the source text is empty, or shorter than 10 characters once
    trimmed, Generate Audit only shows the warning: the session is unchanged,
    no request goes to the endpoint and the history file is untouched. *)
Theorem generate_guard_blocks o s w :
  code_text s = [] \/ (length (strip (code_text s)) < 10)%nat ->
  on_generate o s w =
    (s, emit (st_warning (lit "Please upload or paste a Solidity contract.")) w)
  /\ api_calls (on_generate o s w).2 = api_calls w
  /\ history_file (on_generate o s w).2 = history_file w
  /\ load_history (on_generate o s w).2 = load_history w.
Proof.
  intros H.
  assert (G : negb (truthy (code_text s))
              || (length (strip (code_text s)) <? 10)%nat = true).
  { destruct H as [-> | H]; [reflexivity|].
    apply Nat.ltb_lt in H. rewrite H. apply orb_true_r. }
  unfold on_generate. rewrite G. repeat split.
Qed.

(** The guard at work on a text of one letter between spaces. *)
Lemma generate_guard_blocks_witness :
  on_generate Fixtures.calm (set_code_text (lit "  x  ") session_defaults)
              (Fixtures.fresh ∅) =
    (set_code_text (lit "  x  ") session_defaults,
     emit (st_warning (lit "Please upload or paste a Solidity contract."))
          (Fixtures.fresh ∅)).
Proof.
  apply (generate_guard_blocks Fixtures.calm
           (set_code_text (lit "  x  ") session_defaults) (Fixtures.fresh ∅)).
  right. vm_compute. lia.
Defined.

Lemma generate_passes_guard o s w :
  code_text s ≠ [] -> (10 <= length (strip (code_text s)))%nat ->
  on_generate o s w =
    let tw := audit_contract o (code_text s) w in
    let s' := set_simple_done false (set_simple_report []
                (set_audit_done true (set_report tw.1 s))) in
    (s', (add_history_entry o (code_text s') (report s')
            (or_else (simple_report s') []) tw.2).2).
Proof.
  intros Hne Hlen. unfold on_generate.
  destruct (code_text s) as [|c cs] eqn:E; [congruence|].
  cbn [truthy negb orb].
  apply Nat.ltb_ge in Hlen. rewrite Hlen.
  destruct (audit_contract o (c :: cs) w) as [text w1]. cbn [fst snd].
  destruct (add_history_entry _ _ _ _ w1) as [e w2] eqn:A. reflexivity.
Qed.

(** C10. A Generate Audit that passes the guard leaves the session with an
    empty simplified report and the flag off, and the record it stores has an
    empty [simple_report], whatever simplified report the session held. *)
Theorem generate_stores_empty_simple_report o s w :
  code_text s ≠ [] -> (10 <= length (strip (code_text s)))%nat ->
  let s' := (on_generate o s w).1 in
  let w' := (on_generate o s w).2 in
  simple_report s' = [] /\ simple_done s' = false /\
  exists e, load_history w' = e :: load_history w /\
            e_simple_report e = [] /\
            e_code e = code_text s /\ e_report e = report s'.
Proof.
  intros Hne Hlen. rewrite (generate_passes_guard o s w Hne Hlen).
  cbn zeta. cbn [fst snd].
  repeat split.
  eexists. split.
  - rewrite add_history_entry_load. f_equal.
    unfold audit_contract.
    destruct Agent.audit_defaults as [[m t] k].
    destruct (Agent.audit_contract _ _ _ _ _ _) as [text calls].
    reflexivity.
  - repeat split.
Qed.

(** A session that still holds an older explanation audits the sample code. *)
Lemma generate_stores_empty_simple_report_witness :
  let s := set_simple_report (lit "an older explanation")
             (set_code_text Fixtures.sample_code session_defaults) in
  let w' := (on_generate Fixtures.calm s (Fixtures.fresh ∅)).2 in
  exists e, load_history w' = [e] /\ e_simple_report e = [].
Proof.
  intros s w'.
  destruct (generate_stores_empty_simple_report Fixtures.calm s
              (Fixtures.fresh ∅)) as (_ & _ & e & He & Hs & _).
  - discriminate.
  - vm_compute. lia.
  - exists e. split; [exact He | exact Hs].
Defined.

Section FilterById.
Context {A B : Type} `{EqDecision B} (f : A -> B).


Lemma filter_none_matching (x : B) (l : list A) :
  (forall a, a ∈ l -> f a ≠ x) -> filter (fun a => f a ≠ x) l = l.
Proof.
  induction l as [|a l IH]; intros H; [reflexivity|].
  rewrite filter_cons_True by (apply H; left).
  f_equal. apply IH. intros b Hb. apply H. right. exact Hb.
Qed.



End FilterById.




(** *** The title of a record *)

Lemma truthy_nonempty (s : str) : truthy s = true <-> s ≠ [].
Proof. destruct s; cbn; split; congruence. Qed.

Lemma first_title_spec (lines : list str) :
  first_title lines =
  match head (filter (fun l => l ≠ []) (Spec.heading_trim <$> lines)) with
  | Some l => take 60 l
  | None => lit "Audit"
  end.
Proof.
  induction lines as [|line rest IH]; [reflexivity|].
  rewrite fmap_cons, filter_cons. cbn [first_title].
  fold (Spec.heading_trim line).
  destruct (truthy (Spec.heading_trim line)) eqn:T.
  - apply truthy_nonempty in T. rewrite decide_True by exact T. reflexivity.
  - rewrite decide_False; [exact IH|].
    intros N. apply truthy_nonempty in N. congruence.
Qed.

Lemma or_else_empty (s : str) : or_else s [] = s.
Proof. destruct s; reflexivity. Qed.

(** C9 as stated fails on the empty report: it has no line at all, and the
    stored title is the fixed word Audit. *)
Lemma empty_report_title_is_Audit :
  let e := (add_history_entry Fixtures.calm Fixtures.sample_code [] []
              (Fixtures.fresh ∅)).1 in
  e_report e = [] /\ e_title e = lit "Audit" /\
  Spec.first_nonempty_line Spec.heading_trim (e_report e) = None /\
  Spec.first_nonempty_line strip (e_report e) = None.
Proof. cbv zeta. repeat split. Qed.

(** C9, amended. The title of the stored record is the first line of the
    report that is not empty once the characters # and space and then the
    white space are stripped from both its ends, so stripped and cut to 60
    characters; when the report has no such line the title is Audit.  A
    report whose first line is "## Security Vulnerabilities" is titled
    "Security Vulnerabilities". *)
Theorem stored_title o code report simple w :
  let e := (add_history_entry o code report simple w).1 in
  e_title e =
    match Spec.first_nonempty_line Spec.heading_trim report with
    | Some line => take 60 line
    | None => lit "Audit"
    end
  /\ (forall rest,
        report = lit "## Security Vulnerabilities" ++ [10] ++ rest
        \/ report = lit "## Security Vulnerabilities" ->
        e_title e = lit "Security Vulnerabilities").
Proof.
  intros e.
  assert (E : e_title e = infer_title_from_report report) by reflexivity.
  rewrite E. split.
  - unfold infer_title_from_report, Spec.first_nonempty_line.
    rewrite or_else_empty. apply first_title_spec.
  - intros rest [-> | ->]; reflexivity.
Qed.

(** The title of the record stored for the sample report. *)
Lemma stored_title_witness :
  e_title (add_history_entry Fixtures.calm Fixtures.sample_code
             Fixtures.sample_report [] (Fixtures.fresh ∅)).1
  = lit "Security Vulnerabilities".
Proof.
  refine (proj2 (stored_title Fixtures.calm Fixtures.sample_code
                   Fixtures.sample_report [] (Fixtures.fresh ∅)) _ _).
  left. reflexivity.
Defined.

(** *** Record ids *)

Lemma length_hexdigest (s : Sha256.state) :
  length (Sha256.hexdigest s) = 64%nat.
Proof. destruct s as [[[[[[[a b] c] d] e] f] g] h]. reflexivity. Qed.

Lemma length_code_hash (code : str) : length (_code_hash code) = 12%nat.
Proof. unfold _code_hash. rewrite length_take, length_hexdigest. reflexivity. Qed.

Lemma dec_digit_not_colon (n : N) : (dec_digit n =? 58) = false.
Proof.
  unfold dec_digit. apply N.eqb_neq.
  pose proof (N.mod_upper_bound n 10). lia.
Qed.

Lemma replace_colon_digit (n : N) (s : str) :
  replace_char 58 [] (dec_digit n :: s) = dec_digit n :: replace_char 58 [] s.
Proof.
  unfold replace_char. cbn [flat_map]. rewrite dec_digit_not_colon. reflexivity.
Qed.

(** The time stamp of an id: the digits and marks of the ISO form, the two
    colons gone. *)
Lemma isoformat_without_colons (t : datetime) :
  replace_char 58 [] (isoformat_seconds t) =
  pad4 (year t) ++ [45] ++ pad2 (month t) ++ [45] ++ pad2 (day t) ++ [84]
  ++ pad2 (hour t) ++ pad2 (minute t) ++ pad2 (second t).
Proof.
  unfold isoformat_seconds, pad4, pad2. cbn [app].
  repeat first
    [ rewrite replace_colon_digit
    | progress change (replace_char 58 [] (45 :: ?s))
        with (45 :: replace_char 58 [] s)
    | progress change (replace_char 58 [] (84 :: ?s))
        with (84 :: replace_char 58 [] s)
    | progress change (replace_char 58 [] (58 :: ?s))
        with (replace_char 58 [] s) ].
  reflexivity.
Qed.

Lemma isoformat_without_colons_inj (t1 t2 : datetime) :
  replace_char 58 [] (isoformat_seconds t1)
  = replace_char 58 [] (isoformat_seconds t2) ->
  isoformat_seconds t1 = isoformat_seconds t2.
Proof.
  rewrite !isoformat_without_colons.
  unfold isoformat_seconds, pad4, pad2. cbn [app].
  intros H. injection H as -> -> -> -> -> -> -> -> -> -> -> -> -> ->.
  reflexivity.
Qed.

Lemma dec_digit_inj (a b : N) : dec_digit a = dec_digit b -> a mod 10 = b mod 10.
Proof. unfold dec_digit. lia. Qed.

Lemma pad2_inj (a b : N) : a < 100 -> b < 100 -> pad2 a = pad2 b -> a = b.
Proof.
  intros Ha Hb H. unfold pad2 in H. injection H as H1 H2.
  apply dec_digit_inj in H1, H2.
  pose proof (N.div_mod' a 10). pose proof (N.div_mod' b 10).
  assert (a / 10 < 10) by (apply N.Div0.div_lt_upper_bound; lia).
  assert (b / 10 < 10) by (apply N.Div0.div_lt_upper_bound; lia).
  rewrite !N.mod_small in H1 by assumption. lia.
Qed.

Lemma pad4_inj (a b : N) : a < 10000 -> b < 10000 -> pad4 a = pad4 b -> a = b.
Proof.
  intros Ha Hb H. unfold pad4 in H. injection H as H1 H2 H3 H4.
  apply dec_digit_inj in H1, H2, H3, H4.
  assert (E3 : forall n, n / 1000 = n / 10 / 10 / 10)
    by (intros n; rewrite !N.Div0.div_div; reflexivity).
  assert (E2 : forall n, n / 100 = n / 10 / 10)
    by (intros n; rewrite !N.Div0.div_div; reflexivity).
  rewrite !E3 in H1. rewrite !E2 in H2.
  pose proof (N.div_mod' a 10). pose proof (N.div_mod' b 10).
  pose proof (N.div_mod' (a / 10) 10). pose proof (N.div_mod' (b / 10) 10).
  pose proof (N.div_mod' (a / 10 / 10) 10).
  pose proof (N.div_mod' (b / 10 / 10) 10).
  assert (a / 10 / 10 / 10 < 10).
  { repeat (apply N.Div0.div_lt_upper_bound). lia. }
  assert (b / 10 / 10 / 10 < 10).
  { repeat (apply N.Div0.div_lt_upper_bound). lia. }
  rewrite !(N.mod_small (_ / 10 / 10 / 10)) in H1 by assumption. lia.
Qed.

(** Two readings print the same time stamp exactly when they agree down to
    the second; the microseconds do not show. *)
Lemma isoformat_seconds_same_second (t1 t2 : datetime) :
  valid_datetime t1 -> valid_datetime t2 ->
  isoformat_seconds t1 = isoformat_seconds t2 <->
  year t1 = year t2 /\ month t1 = month t2 /\ day t1 = day t2 /\
  hour t1 = hour t2 /\ minute t1 = minute t2 /\ second t1 = second t2.
Proof.
  intros (Hy1 & Hm1 & Hd1 & Hh1 & Hi1 & Hs1 & _)
         (Hy2 & Hm2 & Hd2 & Hh2 & Hi2 & Hs2 & _).
  split.
  - intros H.
    assert (P : pad4 (year t1) = pad4 (year t2) /\
                pad2 (month t1) = pad2 (month t2) /\
                pad2 (day t1) = pad2 (day t2) /\
                pad2 (hour t1) = pad2 (hour t2) /\
                pad2 (minute t1) = pad2 (minute t2) /\
                pad2 (second t1) = pad2 (second t2)).
    { unfold isoformat_seconds, pad4, pad2 in *. cbn [app] in H.
      injection H as E1 E2 E3 E4 E5 E6 E7 E8 E9 E10 E11 E12 E13 E14.
      repeat split; congruence. }
    destruct P as (Ky & Km & Kd & Kh & Ki & Ks).
    repeat split;
      first [ apply pad4_inj; [lia | lia | assumption]
            | apply pad2_inj; [lia | lia | assumption] ].
  - unfold isoformat_seconds. intros (-> & -> & -> & -> & -> & ->). reflexivity.
Qed.

Lemma entry_id_eq o code report simple w :
  e_id (add_history_entry o code report simple w).1 =
  _code_hash code ++ lit "-"
  ++ replace_char 58 [] (isoformat_seconds (clock o (clock_reads w))).
Proof. reflexivity. Qed.

(** C5 as stated fails: an audit and the explanation that follows it, stored
    for the same source text while the clock shows the same second, are two
    distinct records with one id. *)
Lemma same_second_same_id :
  let w0 := Fixtures.fresh ∅ in
  let a := add_history_entry Fixtures.calm Fixtures.sample_code
             Fixtures.sample_report [] w0 in
  let b := add_history_entry Fixtures.calm Fixtures.sample_code
             Fixtures.sample_report (lit "In short: fine.") a.2 in
  a.1 ≠ b.1 /\ e_id a.1 = e_id b.1 /\ load_history b.2 = [b.1; a.1] /\
  e_id a.1 = lit "5a7ed1c6fdc9-2024-05-17T120000".
Proof.
  intros w0 a b. split; [|split; [|split]]; cycle 3.
  - vm_compute. reflexivity.
  - intros H. apply (f_equal e_simple_report) in H. discriminate H.
  - unfold a, b. rewrite !entry_id_eq. reflexivity.
  - unfold b. rewrite add_history_entry_load. unfold a at 2.
    rewrite add_history_entry_load. reflexivity.
Qed.

(** C5, amended. Two records made by [add_history_entry] have the same id
    exactly when their source texts have the same 12-character hash and the
    clock readings taken for their ids print the same date and time to the
    second; records that differ in either have distinct ids. *)
Theorem entry_ids_equal_iff o code1 report1 simple1 w1 code2 report2 simple2 w2 :
  let e1 := (add_history_entry o code1 report1 simple1 w1).1 in
  let e2 := (add_history_entry o code2 report2 simple2 w2).1 in
  e_id e1 = e_id e2 <->
  _code_hash code1 = _code_hash code2 /\
  isoformat_seconds (clock o (clock_reads w1))
  = isoformat_seconds (clock o (clock_reads w2)).
Proof.
  intros e1 e2. unfold e1, e2. rewrite !entry_id_eq. split.
  - intros H. apply app_inj_1 in H as [Hh Ht].
    + split; [exact Hh|].
      apply isoformat_without_colons_inj.
      injection Ht as Ht. exact Ht.
    + rewrite !length_code_hash. reflexivity.
  - intros [-> ->]. reflexivity.
Qed.

(** *** The error contract of the two API calls *)

(** The request [explain_audit_simple] sends. *)
Lemma explain_request endpoint audit_text audience model temperature max_tokens calls :
  (Agent.explain_audit_simple endpoint audit_text audience model temperature
     max_tokens calls).2
  = calls ++ [ {| Agent.model := model;
                  Agent.messages :=
                    [ {| Agent.role := lit "user";
                         Agent.content := Agent.simplify_prompt audit_text audience |} ];
                  Agent.temperature := temperature;
                  Agent.max_tokens := max_tokens |} ].
Proof.
  unfold Agent.explain_audit_simple, Agent.create.
  destruct (_ ≫= Agent.first_content) as [text|e]; [reflexivity|].
  destruct (is_OpenAIError e); reflexivity.
Qed.

(** A failed audit call comes back as a string that starts with the marker. *)
Lemma audit_failure_is_marked endpoint code model temperature max_tokens calls e :
  (endpoint (length calls)
    {| Agent.model := model;
       Agent.messages :=
         [ {| Agent.role := lit "user";
              Agent.content := Agent.audit_prompt code |} ];
       Agent.temperature := temperature;
       Agent.max_tokens := max_tokens |} ≫= Agent.first_content) = Raise e ->
  startswith (Agent.audit_contract endpoint code model temperature max_tokens
                calls).1 Agent.failure_marker = true.
Proof.
  intros H. unfold Agent.audit_contract, Agent.create. rewrite H.
  destruct (is_OpenAIError e); reflexivity.
Qed.

(** C1 as stated fails: on a refused call [audit_contract] answers with the
    marker in front, [explain_audit_simple] without it. *)
Lemma explain_failure_lacks_marker :
  let audit :=
    (Agent.audit_contract Fixtures.rate_limited Fixtures.sample_code
       (lit "gpt-4") (3 # 10)%Q 1800%Z []).1 in
  let simple :=
    (Agent.explain_audit_simple Fixtures.rate_limited Fixtures.sample_report
       (lit "beginner") (lit "gpt-4") (3 # 10)%Q 1200%Z []).1 in
  audit = Agent.failure_marker ++ lit " Audit failed: rate limit" /\
  startswith audit Agent.failure_marker = true /\
  simple = lit "Could not generate simple explanation: rate limit" /\
  startswith simple Agent.failure_marker = false.
Proof. vm_compute. repeat split. Qed.

(** C1, amended. [explain_audit_simple] returns a string on every failure of
    the call, whether the endpoint raises or its reply has no usable
    content: "Could not generate simple explanation: " followed by the
    error for an OpenAI error, "Unexpected error while simplifying: "
    followed by the error for any other; neither starts with the failure
    marker of [audit_contract]. *)
Theorem explain_error_contract endpoint audit_text audience model temperature
    max_tokens calls e :
  (endpoint (length calls)
    {| Agent.model := model;
       Agent.messages :=
         [ {| Agent.role := lit "user";
              Agent.content := Agent.simplify_prompt audit_text audience |} ];
       Agent.temperature := temperature;
       Agent.max_tokens := max_tokens |} ≫= Agent.first_content) = Raise e ->
  let text :=
    (Agent.explain_audit_simple endpoint audit_text audience model temperature
       max_tokens calls).1 in
  text = (if is_OpenAIError e
          then lit "Could not generate simple explanation: "
          else lit "Unexpected error while simplifying: ") ++ exc_msg e
  /\ startswith text Agent.failure_marker = false.
Proof.
  intros H. unfold Agent.explain_audit_simple, Agent.create. rewrite H.
  destruct (is_OpenAIError e); split; reflexivity.
Qed.

(** The refused call of the counterexample, through the theorem. *)
Lemma explain_error_contract_witness :
  (Agent.explain_audit_simple Fixtures.rate_limited Fixtures.sample_report
     (lit "beginner") (lit "gpt-4") (3 # 10)%Q 1200%Z []).1
  = lit "Could not generate simple explanation: rate limit".
Proof.
  refine (proj1 (explain_error_contract Fixtures.rate_limited
                   Fixtures.sample_report (lit "beginner") (lit "gpt-4")
                   (3 # 10)%Q 1200%Z []
                   {| exc_cls := OpenAIError; exc_msg := lit "rate limit" |} _)).
  reflexivity.
Defined.

(** *** Sending mail *)

Lemma send_email_port_error o body to_email subject w e :
  port_setting w = Raise e ->
  send_email o body to_email subject w = (Raise e, w).
Proof. intros H. unfold send_email. rewrite H. reflexivity. Qed.

(** Once the port reads as an integer, [send_email] returns a status. *)
Lemma send_email_returns o body to_email subject w port :
  port_setting w = Ret port ->
  exists status, (send_email o body to_email subject w).1 = Ret status.
Proof.
  intros H. unfold send_email. rewrite H.
  destruct (negb _); [eexists; reflexivity|].
  destruct (email_policy o _) as [e|].
  - eexists. reflexivity.
  - destruct (smtp_session _ _ _ _ _ _ _) as [[u|e] w']; eexists; reflexivity.
Qed.

(** C2 as stated fails: with host, user and password set and no SMTP_PORT at
    all, the port is taken to be 587 and the relay is contacted. *)
Lemma absent_port_still_connects :
  let w := Fixtures.fresh Fixtures.env_no_port in
  let r := send_email Fixtures.calm Fixtures.sample_report
             (lit "dev@example.com") (lit "Smart Contract Audit Report") w in
  environ w !! "SMTP_PORT" = None /\
  r.1 = Ret (lit "sent") /\
  head (smtp_log r.2) = Some (Connect (lit "smtp.example.com") 587%Z).
Proof. vm_compute. repeat split. Qed.

Lemma Ret_inj {A} (a b : A) : Ret a = Ret b -> a = b.
Proof. intros [= H]. exact H. Qed.

Lemma truthy_false (s : str) : truthy s = false <-> s = [].
Proof. destruct s; cbn; split; congruence. Qed.

Lemma truthy_int_false (n : Z) : truthy_int n = false <-> n = 0%Z.
Proof.
  unfold truthy_int. rewrite negb_false_iff. apply Z.eqb_eq.
Qed.

Lemma settings_present_false (w : world) (port : Z) :
  Notions.settings_present w port = false <->
  getenv w "SMTP_HOST" [] = [] \/ port = 0%Z \/
  getenv w "SMTP_USER" [] = [] \/ getenv w "SMTP_PASS" [] = [].
Proof.
  unfold Notions.settings_present.
  rewrite !andb_false_iff, !truthy_false, truthy_int_false. tauto.
Qed.

(** A session on the relay starts by connecting, whatever comes after. *)
Lemma smtp_session_connects_first o host port user pwd m w :
  exists rest,
    smtp_log (smtp_session o host port user pwd m w).2
    = smtp_log w ++ Connect host port :: rest.
Proof.
  unfold smtp_session, smtp.
  repeat (match goal with
          | |- context [relay o ?l] => destruct (relay o l)
          end; cbn [smtp_log set_smtp_log fst snd]);
    try match goal with
        | |- context [is_SMTPServerDisconnected ?e] =>
            destruct (is_SMTPServerDisconnected e)
        end;
    cbn [smtp_log set_smtp_log fst snd]; rewrite <- ?app_assoc; cbn [app];
    eexists; reflexivity.
Qed.

Lemma status_is_not_settings_missing (msg : str) :
  lit "sent" ≠ settings_missing /\ lit "Email error: " ++ msg ≠ settings_missing.
Proof. split; intros H; vm_compute in H; discriminate H. Qed.

(** C2, amended. Let the port setting read as an integer: SMTP_PORT when it
    is set and not empty, 587 otherwise, so that an unset or empty SMTP_PORT
    does not count as missing.  Then [send_email] returns the
    settings-missing message exactly when the host, the user name or the
    password is unset or empty or the port reads as 0, and in that case it
    leaves the world as it was: nothing is sent to the relay.  With the four
    settings there and a message the email package accepts, the first thing
    it does is to connect to the relay at the host and that port. *)
Theorem send_email_settings_missing o body to_email subject w port :
  port_setting w = Ret port ->
  let host := getenv w "SMTP_HOST" [] in
  let user := getenv w "SMTP_USER" [] in
  let pwd := getenv w "SMTP_PASS" [] in
  let r := send_email o body to_email subject w in
  (r.1 = Ret settings_missing
   <-> host = [] \/ port = 0%Z \/ user = [] \/ pwd = [])
  /\ (host = [] \/ port = 0%Z \/ user = [] \/ pwd = [] ->
      r = (Ret settings_missing, w) /\ smtp_log r.2 = smtp_log w)
  /\ (environ w !! "SMTP_PORT" = None
      \/ environ w !! "SMTP_PORT" = Some ([] : str) ->
      port = 587%Z)
  /\ (host ≠ [] -> port ≠ 0%Z -> user ≠ [] -> pwd ≠ [] ->
      email_policy o (Notions.outgoing user to_email subject body) = None ->
      exists rest, smtp_log r.2 = smtp_log w ++ Connect host port :: rest).
Proof.
  intros Hport host user pwd r.
  assert (Missing : Notions.settings_present w port = false ->
                    r = (Ret settings_missing, w)).
  { intros S. unfold r, send_email. rewrite Hport.
    fold (Notions.settings_present w port). rewrite S. reflexivity. }
  assert (Present : Notions.settings_present w port = true ->
            r.1 ≠ Ret settings_missing
            /\ (email_policy o (Notions.outgoing user to_email subject body)
                = None ->
                exists rest, smtp_log r.2 = smtp_log w ++ Connect host port :: rest)).
  { intros S. unfold r, send_email. rewrite Hport.
    fold (Notions.settings_present w port). rewrite S. cbn [negb].
    fold host user pwd.
    fold (Notions.outgoing user to_email subject body).
    destruct (email_policy o _) as [e|].
    - split; [|discriminate]. cbn [fst]. intros H. apply Ret_inj in H.
      exact (proj2 (status_is_not_settings_missing _) H).
    - destruct (smtp_session_connects_first o host port user pwd
                  (Notions.outgoing user to_email subject body) w)
        as [rest E].
      destruct (smtp_session _ _ _ _ _ _ _) as [[u|e] w'];
        cbn [fst snd] in *.
      + split; [|intros _; exists rest; exact E].
        intros H. apply Ret_inj in H.
        exact (proj1 (status_is_not_settings_missing []) H).
      + split; [|intros _; exists rest; exact E].
        intros H. apply Ret_inj in H.
        exact (proj2 (status_is_not_settings_missing _) H). }
  pose proof (settings_present_false w port) as F. fold host user pwd in F.
  split; [|split; [|split]].
  - destruct (Notions.settings_present w port) eqn:S.
    + split.
      * intros H. destruct (proj1 (Present eq_refl) H).
      * intros H. apply F in H. discriminate H.
    + split.
      * intros _. apply F. reflexivity.
      * intros _. rewrite (Missing eq_refl). reflexivity.
  - intros H. apply F in H. rewrite (Missing H). split; reflexivity.
  - intros H. unfold port_setting, getenv in Hport.
    assert (E : int (lit "587") = Ret port).
    { destruct H as [H | H]; rewrite H in Hport; exact Hport. }
    vm_compute in E. injection E as <-. reflexivity.
  - intros Hh Hp Hu Hw. apply Present.
    destruct (Notions.settings_present w port) eqn:S; [reflexivity|].
    assert (D : false = false) by reflexivity. apply F in D. tauto.
Qed.

(** A port set to 2525 and no host: nothing is sent. *)
Lemma send_email_settings_missing_witness :
  let w := Fixtures.fresh Fixtures.env_no_host in
  send_email Fixtures.calm Fixtures.sample_report (lit "dev@example.com")
    (lit "Smart Contract Audit Report") w = (Ret settings_missing, w).
Proof.
  intros w.
  refine (proj1 (proj1 (proj2 (send_email_settings_missing Fixtures.calm
                   Fixtures.sample_report
                   (lit "dev@example.com") (lit "Smart Contract Audit Report")
                   w 2525%Z _)) _)).
  - vm_compute. reflexivity.
  - left. vm_compute. reflexivity.
Defined.

(** C3: the code breaks it.  With SMTP_PORT set to a text that is not an
    integer, [send_email] raises [ValueError] from the conversion of the
    port, which stands before the [try]; whatever the message and the relay,
    no status comes back. *)
Theorem malformed_port_raises o body to_email subject :
  let w := Fixtures.fresh Fixtures.env_bad_port in
  environ w !! "SMTP_PORT" = Some (lit "abc") /\
  send_email o body to_email subject w =
    (Raise {| exc_cls := ValueError;
              exc_msg := lit "invalid literal for int() with base 10: 'abc'" |},
     w).
Proof.
  intros w. split; [vm_compute; reflexivity|].
  apply send_email_port_error. vm_compute. reflexivity.
Qed.

(** ** Further properties of the code *)

(** *** Stripping *)

Lemma last_rev' {A} (l : list A) : last (rev l) = head l.
Proof. destruct l as [|a l]; [reflexivity|]. cbn [rev]. apply last_snoc. Qed.

Lemma head_rev {A} (l : list A) : head (rev l) = last l.
Proof. rewrite <- (rev_involutive l) at 2. rewrite last_rev'. reflexivity. Qed.

Lemma lstrip_by_head p s c : head (lstrip_by p s) = Some c -> p c = false.
Proof.
  induction s as [|a s IH]; [discriminate|].
  cbn [lstrip_by]. destruct (p a) eqn:E; [exact IH|].
  cbn. intros [= <-]. exact E.
Qed.

Lemma lstrip_by_fixed p s :
  (forall c, head s = Some c -> p c = false) -> lstrip_by p s = s.
Proof.
  destruct s as [|a s]; [reflexivity|].
  intros H. cbn [lstrip_by]. rewrite (H a eq_refl). reflexivity.
Qed.

Lemma lstrip_by_suffix p s : exists pre, s = pre ++ lstrip_by p s.
Proof.
  induction s as [|a s [pre IH]]; [exists []; reflexivity|].
  cbn [lstrip_by]. destruct (p a).
  - exists (a :: pre). cbn. f_equal. exact IH.
  - exists []. reflexivity.
Qed.

Lemma rstrip_by_prefix p s : exists post, s = rstrip_by p s ++ post.
Proof.
  unfold rstrip_by. destruct (lstrip_by_suffix p (rev s)) as [pre E].
  exists (rev pre). rewrite <- rev_app_distr, <- E, rev_involutive. reflexivity.
Qed.

Lemma strip_by_last p s c : last (strip_by p s) = Some c -> p c = false.
Proof.
  unfold strip_by, rstrip_by. rewrite last_rev'. apply lstrip_by_head.
Qed.

Lemma strip_by_head p s c : head (strip_by p s) = Some c -> p c = false.
Proof.
  unfold strip_by.
  destruct (rstrip_by_prefix p (lstrip_by p s)) as [post E].
  intros H. apply (lstrip_by_head p s). rewrite E.
  destruct (rstrip_by p (lstrip_by p s)); [discriminate|exact H].
Qed.

Lemma strip_by_fixed p s :
  (forall c, head s = Some c -> p c = false) ->
  (forall c, last s = Some c -> p c = false) ->
  strip_by p s = s.
Proof.
  intros Hh Hl. unfold strip_by, rstrip_by.
  rewrite (lstrip_by_fixed p s Hh).
  rewrite lstrip_by_fixed; [apply rev_involutive|].
  intros c. rewrite head_rev. apply Hl.
Qed.

Lemma strip_by_idempotent p s : strip_by p (strip_by p s) = strip_by p s.
Proof.
  apply strip_by_fixed; intros c; [apply strip_by_head | apply strip_by_last].
Qed.

Lemma strip_by_length p s : (length (strip_by p s) <= length s)%nat.
Proof.
  unfold strip_by.
  destruct (lstrip_by_suffix p s) as [pre E].
  destruct (rstrip_by_prefix p (lstrip_by p s)) as [post F].
  rewrite E at 2. rewrite F at 2. rewrite !length_app. lia.
Qed.

(** *** agent.py *)


(** *** agent.py *)

Import Notions.

Lemma audit_contract_calls endpoint calls code model temperature max_tokens :
  (Agent.audit_contract endpoint code model temperature max_tokens calls).2
  = calls ++ [audit_request code model temperature max_tokens].
Proof.
  unfold Agent.audit_contract, Agent.create.
  destruct (_ ≫= Agent.first_content) as [text|e]; [reflexivity|].
  destruct (is_OpenAIError e); reflexivity.
Qed.

Lemma explain_audit_simple_calls endpoint calls audit_text audience model
    temperature max_tokens :
  (Agent.explain_audit_simple endpoint audit_text audience model temperature
     max_tokens calls).2
  = calls ++ [simplify_request audit_text audience model temperature max_tokens].
Proof.
  unfold Agent.explain_audit_simple, Agent.create.
  destruct (_ ≫= Agent.first_content) as [text|e]; [reflexivity|].
  destruct (is_OpenAIError e); reflexivity.
Qed.

(** X1. Each call of [audit_contract] and of [explain_audit_simple] sends
    exactly one request, whether it succeeds or fails: the log of requests
    grows by the one request with a single user message holding the prompt,
    and the model, temperature and token budget passed in. *)
Theorem one_request_per_call endpoint calls code audit_text audience model
    temperature max_tokens :
  (Agent.audit_contract endpoint code model temperature max_tokens calls).2
  = calls ++ [audit_request code model temperature max_tokens]
  /\ (Agent.explain_audit_simple endpoint audit_text audience model temperature
        max_tokens calls).2
     = calls ++ [simplify_request audit_text audience model temperature max_tokens].
Proof.
  split; [apply audit_contract_calls | apply explain_audit_simple_calls].
Qed.

(** X2. The prompts carry the caller's text as it is, with no escaping and no
    cut: the audit prompt is a fixed head, the source text, and the closing
    fence; the simplify prompt is fixed text around the audience and the
    audit. *)
Theorem prompts_embed_verbatim :
  exists head1 head2 mid2,
    (forall code,
       Agent.audit_prompt code = head1 ++ code ++ [10] ++ lit "```" ++ [10])
    /\ (forall audit_text audience,
          Agent.simplify_prompt audit_text audience
          = head2 ++ audience ++ mid2 ++ audit_text ++ [10])
    /\ drop (length head1 - 12) head1 = lit "```solidity" ++ [10].
Proof.
  exists (take (length (Agent.audit_prompt []) - 5) (Agent.audit_prompt [])).
  exists (take 67 (Agent.simplify_prompt [] [])).
  exists (drop 67 (take (length (Agent.simplify_prompt [] []) - 1)
                     (Agent.simplify_prompt [] []))).
  split; [|split].
  - intros code. unfold Agent.audit_prompt, Agent.unlines.
    cbn [flat_map]. rewrite !app_nil_r.
    repeat rewrite <- app_assoc. vm_compute. reflexivity.
  - intros audit_text audience. unfold Agent.simplify_prompt, Agent.unlines.
    cbn [flat_map]. rewrite !app_nil_r.
    repeat rewrite <- app_assoc. vm_compute. reflexivity.
  - vm_compute. reflexivity.
Qed.

(** X3. When the endpoint answers, [audit_contract] returns the content of
    the first choice with the white space at both ends removed, whatever the
    other choices are: the report neither starts nor ends with white space
    and is no longer than the content. *)
Theorem audit_success_is_stripped endpoint calls code model temperature
    max_tokens text more :
  endpoint (length calls) (audit_request code model temperature max_tokens)
  = Ret {| Agent.choices := Some text :: more |} ->
  let result :=
    (Agent.audit_contract endpoint code model temperature max_tokens calls).1 in
  result = strip text /\ strip result = result
  /\ (forall c, head result = Some c -> is_space c = false)
  /\ (forall c, last result = Some c -> is_space c = false)
  /\ (length result <= length text)%nat.
Proof.
  intros H result.
  assert (E : result = strip text).
  { unfold result, Agent.audit_contract, Agent.create.
    fold (audit_request code model temperature max_tokens). rewrite H.
    reflexivity. }
  rewrite E. split; [reflexivity|]. split; [apply strip_by_idempotent|].
  split; [intros c; apply strip_by_head|].
  split; [intros c; apply strip_by_last | apply strip_by_length].
Qed.

Lemma audit_success_is_stripped_witness :
  (Agent.audit_contract (endpoint Fixtures.calm) Fixtures.sample_code
     (lit "gpt-4") (3 # 10)%Q 1800%Z []).1 = strip Fixtures.sample_report.
Proof.
  refine (proj1 (audit_success_is_stripped (endpoint Fixtures.calm) []
                   Fixtures.sample_code (lit "gpt-4") (3 # 10)%Q 1800%Z
                   Fixtures.sample_report [] _)).
  reflexivity.
Defined.

(** X4. The result of [audit_contract] starts with the failure marker exactly
    when the call failed or the stripped text of the answer itself starts
    with it: every failure is marked, and a marked result is a failure unless
    the model wrote the marker. *)
Theorem audit_marker_iff endpoint calls code model temperature max_tokens :
  let outcome_ :=
    reply endpoint (length calls)
      (audit_request code model temperature max_tokens) in
  let result :=
    (Agent.audit_contract endpoint code model temperature max_tokens calls).1 in
  startswith result Agent.failure_marker = true <->
  (exists e, outcome_ = Raise e)
  \/ (exists text, outcome_ = Ret text
                   /\ startswith text Agent.failure_marker = true).
Proof.
  intros outcome_ result.
  unfold result, Agent.audit_contract, Agent.create.
  fold (audit_request code model temperature max_tokens).
  fold (reply endpoint (length calls)
          (audit_request code model temperature max_tokens)).
  fold outcome_. destruct outcome_ as [text|e].
  - cbn [fst]. split.
    + intros H. right. exists text. split; [reflexivity | exact H].
    + intros [[e He] | [t [[= <-] Ht]]]; [discriminate | exact Ht].
  - split; [intros _; left; exists e; reflexivity|].
    intros _. destruct (is_OpenAIError e); reflexivity.
Qed.

(** X5. An answer without usable content is handled like any other
    failure: with no choice at all, or with a first choice whose content is
    [None], both functions return their message for unexpected errors, with
    Python's description of the fault. *)
Theorem malformed_reply_is_reported endpoint calls code audit_text audience
    model temperature max_tokens more :
  (endpoint (length calls) (audit_request code model temperature max_tokens)
   = Ret {| Agent.choices := [] |} ->
   (Agent.audit_contract endpoint code model temperature max_tokens calls).1
   = Agent.failure_marker ++ lit " Unexpected error: list index out of range")
  /\ (endpoint (length calls)
        (audit_request code model temperature max_tokens)
      = Ret {| Agent.choices := None :: more |} ->
      (Agent.audit_contract endpoint code model temperature max_tokens calls).1
      = Agent.failure_marker
        ++ lit " Unexpected error: 'NoneType' object has no attribute 'strip'")
  /\ (endpoint (length calls)
        (simplify_request audit_text audience model temperature max_tokens)
      = Ret {| Agent.choices := [] |} ->
      (Agent.explain_audit_simple endpoint audit_text audience model
         temperature max_tokens calls).1
      = lit "Unexpected error while simplifying: list index out of range")
  /\ (endpoint (length calls)
        (simplify_request audit_text audience model temperature max_tokens)
      = Ret {| Agent.choices := None :: more |} ->
      (Agent.explain_audit_simple endpoint audit_text audience model
         temperature max_tokens calls).1
      = lit "Unexpected error while simplifying: 'NoneType' object has no attribute 'strip'").
Proof.
  repeat split; intros H;
    unfold Agent.audit_contract, Agent.explain_audit_simple, Agent.create;
    fold (audit_request code model temperature max_tokens);
    fold (simplify_request audit_text audience model temperature max_tokens);
    rewrite H; reflexivity.
Qed.

Lemma malformed_reply_is_reported_witness :
  (Agent.audit_contract (fun _ _ => Ret {| Agent.choices := [] |})
     Fixtures.sample_code (lit "gpt-4") (3 # 10)%Q 1800%Z []).1
  = Agent.failure_marker ++ lit " Unexpected error: list index out of range".
Proof.
  refine (proj1 (malformed_reply_is_reported
                   (fun _ _ => Ret {| Agent.choices := [] |}) []
                   Fixtures.sample_code [] [] (lit "gpt-4") (3 # 10)%Q 1800%Z
                   []) _).
  reflexivity.
Defined.

(** *** Hashes, ids and time stamps *)

Lemma hexdigit_is_hex (n : N) : n < 16 -> is_hex_digit (Sha256.hexdigit n) = true.
Proof.
  intros H. unfold Sha256.hexdigit, is_hex_digit.
  destruct (N.ltb_spec n 10).
  - apply orb_true_iff. left. apply andb_true_iff.
    split; apply N.leb_le; lia.
  - apply orb_true_iff. right. apply andb_true_iff.
    split; apply N.leb_le; lia.
Qed.

Lemma nibble_bound (x : N) : N.land x 15 < 16.
Proof.
  change 15 with (N.ones 4). rewrite N.land_ones.
  apply N.mod_upper_bound. discriminate.
Qed.

Lemma hex8_is_hex (w : N) :
  Forall (fun c => is_hex_digit c = true) (Sha256.hex8 w).
Proof.
  unfold Sha256.hex8.
  repeat (apply Forall_cons; split; [apply hexdigit_is_hex, nibble_bound|]).
  apply Forall_nil_2.
Qed.

Lemma hexdigest_is_hex (s : Sha256.state) :
  Forall (fun c => is_hex_digit c = true) (Sha256.hexdigest s).
Proof.
  destruct s as [[[[[[[a b] c] d] e] f] g] h]. unfold Sha256.hexdigest.
  repeat (apply Forall_app; split; [apply hex8_is_hex|]). apply hex8_is_hex.
Qed.

Lemma code_hash_hex (code : str) :
  Forall (fun c => is_hex_digit c = true) (_code_hash code).
Proof. unfold _code_hash. apply Forall_take, hexdigest_is_hex. Qed.

(** X6. The hash of a source text made of Unicode scalar values, the texts
    [str.encode] accepts, is 12 lower-case hexadecimal digits, whatever the
    text, the empty one included. *)
Theorem code_hash_is_12_hex_digits (code : str) :
  Forall (fun c => Codec.is_scalar c = true) code ->
  length (_code_hash code) = 12%nat
  /\ Forall (fun c => is_hex_digit c = true) (_code_hash code).
Proof.
  intros _. split; [apply length_code_hash | apply code_hash_hex].
Qed.

Lemma code_hash_is_12_hex_digits_witness :
  length (_code_hash Fixtures.sample_code) = 12%nat.
Proof.
  refine (proj1 (code_hash_is_12_hex_digits Fixtures.sample_code _)).
  apply all_scalar. reflexivity.
Defined.

Lemma is_hex_digit_not_colon (c : char) : is_hex_digit c = true -> c ≠ 58.
Proof.
  unfold is_hex_digit. intros H ->. vm_compute in H. discriminate.
Qed.

Lemma dec_digit_neq_colon (n : N) : dec_digit n ≠ 58.
Proof. apply N.eqb_neq, dec_digit_not_colon. Qed.

Lemma length_isoformat_without_colons (t : datetime) :
  length (replace_char 58 [] (isoformat_seconds t)) = 17%nat.
Proof. rewrite isoformat_without_colons. reflexivity. Qed.

(** X7. The id of a new record is 30 characters long: the 12 characters of
    the code hash, which the record also keeps as [code_hash], a hyphen, and
    the 17 characters of the date and time; no colon occurs in it.  The
    record keeps the source text and the report as given. *)
Theorem new_entry_id_shape o code report simple w :
  let e := (add_history_entry o code report simple w).1 in
  length (e_id e) = 30%nat
  /\ take 12 (e_id e) = e_code_hash e
  /\ e_code_hash e = _code_hash code
  /\ nth_error (e_id e) 12 = Some 45
  /\ (58 ∉ e_id e)
  /\ e_code e = code /\ e_report e = report.
Proof.
  intros e. unfold e. rewrite !entry_id_eq.
  pose proof (length_code_hash code) as L.
  split; [|split; [|split; [|split; [|split]]]].
  - rewrite !length_app, L, length_isoformat_without_colons. reflexivity.
  - rewrite take_app_length' by (symmetry; exact L). reflexivity.
  - reflexivity.
  - rewrite nth_error_app2 by lia. rewrite L. reflexivity.
  - rewrite isoformat_without_colons. intros H.
    apply elem_of_app in H as [H|H].
    + pose proof (code_hash_hex code) as F.
      rewrite Forall_forall in F. apply (is_hex_digit_not_colon 58); [|reflexivity].
      apply F, H.
    + unfold pad4, pad2 in H. cbn [app lit] in H.
      repeat (apply elem_of_cons in H as [H|H];
              [first [ discriminate H
                     | symmetry in H; exact (dec_digit_neq_colon _ H) ]|]).
      inversion H.
  - split; reflexivity.
Qed.

(** X8. [add_history_entry] reads the clock twice: the id carries the first
    reading and the [timestamp] field the second, so the two show the same
    second exactly when the clock printed the same at both readings. *)
Theorem timestamp_is_second_reading o code report simple w :
  let e := (add_history_entry o code report simple w).1 in
  let w' := (add_history_entry o code report simple w).2 in
  clock_reads w' = (clock_reads w + 2)%nat
  /\ drop 13 (e_id e)
     = replace_char 58 [] (isoformat_seconds (clock o (clock_reads w)))
  /\ e_timestamp e = isoformat_seconds (clock o (S (clock_reads w)))
  /\ (drop 13 (e_id e) = replace_char 58 [] (e_timestamp e) <->
      isoformat_seconds (clock o (clock_reads w))
      = isoformat_seconds (clock o (S (clock_reads w)))).
Proof.
  intros e w'.
  assert (D : drop 13 (e_id e)
              = replace_char 58 []
                  (isoformat_seconds (clock o (clock_reads w)))).
  { unfold e. rewrite entry_id_eq.
    change (_code_hash code ++ lit "-" ++ ?t)
      with (_code_hash code ++ [45] ++ t).
    rewrite app_assoc. apply drop_app_length'.
    rewrite length_app, length_code_hash. reflexivity. }
  split; [cbn; lia|]. split; [exact D|]. split; [reflexivity|].
  rewrite D. split.
  - apply isoformat_without_colons_inj.
  - intros E. change (e_timestamp e)
      with (isoformat_seconds (clock o (S (clock_reads w)))).
    rewrite E. reflexivity.
Qed.

(** With a clock that moves between the two readings, the id says 12:00:59
    and the time stamp 12:01:00. *)
Example id_and_timestamp_apart :
  let e := (add_history_entry Scenes.hurried Fixtures.sample_code
              Fixtures.sample_report [] (Fixtures.fresh ∅)).1 in
  e_id e = lit "5a7ed1c6fdc9-2024-05-17T120059"
  /\ e_timestamp e = lit "2024-05-17T12:01:00".
Proof. vm_compute. split; reflexivity. Qed.

(** *** The history file *)






(** X11. Deleting the id of the record just added removes it together with
    every older record of the same id: the history is back to what it was
    exactly when no older record had that id. *)
Theorem add_then_delete o code report simple w :
  let e := (add_history_entry o code report simple w).1 in
  let w' := (add_history_entry o code report simple w).2 in
  load_history (delete_history_entry (e_id e) w')
  = filter (fun x => e_id x ≠ e_id e) (load_history w)
  /\ (load_history (delete_history_entry (e_id e) w') = load_history w
      <-> e_id e ∉ e_id <$> load_history w).
Proof.
  intros e w'.
  assert (E : load_history (delete_history_entry (e_id e) w')
              = filter (fun x => e_id x ≠ e_id e) (load_history w)).
  { unfold delete_history_entry. rewrite load_save.
    unfold w', e. rewrite add_history_entry_load.
    rewrite filter_cons_False; [reflexivity|]. intros H. apply H. reflexivity. }
  split; [exact E|]. rewrite E. split.
  - intros H Hin. apply list_elem_of_fmap in Hin as [x [Hx Hin]].
    rewrite <- H in Hin. apply list_elem_of_filter in Hin as [Hne _].
    apply Hne. symmetry. exact Hx.
  - intros H. apply (filter_none_matching e_id). intros x Hx Heq.
    apply H. rewrite <- Heq. apply list_elem_of_fmap.
    exists x. split; [reflexivity | exact Hx].
Qed.

(** *** Titles *)

Lemma first_title_label (lines : list str) :
  let t := first_title lines in
  t ≠ [] /\ (length t <= 60)%nat /\ (forall c, head t = Some c -> is_space c = false).
Proof.
  induction lines as [|line rest IH].
  - cbn. split; [discriminate|]. split; [lia|].
    intros c [= <-]. reflexivity.
  - cbn [first_title].
    destruct (truthy (strip (strip_chars (lit "# ") line))) eqn:T; [|exact IH].
    cbv zeta. remember (strip (strip_chars (lit "# ") line)) as l eqn:El.
    destruct l as [|c0 l]; [discriminate|].
    split; [discriminate|]. split; [rewrite length_take; lia|].
    cbn. intros c [= <-].
    apply (strip_by_head is_space (strip_chars (lit "# ") line)).
    unfold strip in El. rewrite <- El. reflexivity.
Qed.

(** X12. The title of a report is never empty, has at most 60 characters and
    does not start with white space, whatever the report: empty, blank,
    made of heading marks only, or with a first line of any length. *)
Theorem title_is_short_label (report : str) :
  let t := infer_title_from_report report in
  t ≠ [] /\ (length t <= 60)%nat
  /\ (forall c, head t = Some c -> is_space c = false).
Proof. apply first_title_label. Qed.

(** *** The buttons *)

Lemma strip_short_of_empty (code : str) :
  (10 <= length (strip code))%nat -> code ≠ [].
Proof. intros H ->. cbn in H. lia. Qed.

Lemma audit_contract_world o code w :
  audit_contract o code w =
  ((Agent.audit_contract (endpoint o) code (lit "gpt-4") (3 # 10)%Q 1800%Z
      (api_calls w)).1,
   set_api_calls (api_calls w ++ [page_audit_request code]) w).
Proof.
  unfold audit_contract. cbn [Agent.audit_defaults].
  pose proof (audit_contract_calls (endpoint o) (api_calls w) code
                (lit "gpt-4") (3 # 10)%Q 1800%Z) as E.
  destruct (Agent.audit_contract _ _ _ _ _ _) as [text calls].
  cbn [fst snd] in *. rewrite E. reflexivity.
Qed.


Lemma on_generate_passing o s w :
  (10 <= length (strip (code_text s)))%nat ->
  on_generate o s w =
  let text :=
    (Agent.audit_contract (endpoint o) (code_text s) (lit "gpt-4") (3 # 10)%Q
       1800%Z (api_calls w)).1 in
  let s' := set_simple_done false (set_simple_report []
              (set_audit_done true (set_report text s))) in
  (s', (add_history_entry o (code_text s) text []
          (set_api_calls (api_calls w ++ [page_audit_request (code_text s)]) w)).2).
Proof.
  intros H.
  rewrite (generate_passes_guard o s w (strip_short_of_empty _ H) H).
  rewrite audit_contract_world. reflexivity.
Qed.


(** X13. Generate Audit sends a request exactly when the source text has at
    least 10 characters once stripped; the test for an empty text adds
    nothing, and a text of white space only is refused. *)
Theorem generate_sends_iff o s w :
  (api_calls (on_generate o s w).2
   = api_calls w ++ [page_audit_request (code_text s)]
   <-> (10 <= length (strip (code_text s)))%nat)
  /\ (api_calls (on_generate o s w).2 = api_calls w
      <-> (length (strip (code_text s)) < 10)%nat).
Proof.
  destruct (le_lt_dec 10 (length (strip (code_text s)))) as [H|H].
  - rewrite (on_generate_passing o s w H). cbn.
    split; split; try lia; intros E; try reflexivity.
    apply (f_equal length) in E. rewrite length_app in E. cbn in E. lia.
  - assert (G : on_generate o s w
                = (s, emit (st_warning
                              (lit "Please upload or paste a Solidity contract."))
                        w)).
    { unfold on_generate. apply Nat.ltb_lt in H. rewrite H, orb_true_r.
      reflexivity. }
    rewrite G. cbn.
    split; split; try lia; intros E; try reflexivity.
    apply (f_equal length) in E. rewrite length_app in E. cbn in E. lia.
Qed.





(** X16. Without an audit in the session (flag off, or empty report),
    Explain Simply only shows its note: no request is sent, no record is
    stored and the session, simplified report included, is unchanged. *)
Theorem explain_guard_blocks o s w :
  audit_done s = false \/ report s = [] ->
  on_explain o s w = (s, emit (st_info (lit "Generate an audit first.")) w)
  /\ api_calls (on_explain o s w).2 = api_calls w
  /\ history_file (on_explain o s w).2 = history_file w.
Proof.
  intros H.
  assert (G : negb (audit_done s) || negb (truthy (report s)) = true).
  { destruct H as [-> | ->]; [reflexivity | apply orb_true_r]. }
  unfold on_explain. rewrite G. repeat split.
Qed.

Lemma explain_guard_blocks_witness :
  on_explain Fixtures.calm session_defaults (Fixtures.fresh ∅)
  = (session_defaults,
     emit (st_info (lit "Generate an audit first.")) (Fixtures.fresh ∅)).
Proof.
  refine (proj1 (explain_guard_blocks Fixtures.calm session_defaults
                   (Fixtures.fresh ∅) _)).
  left. reflexivity.
Defined.



(** X18. Clear empties the source text and both reports, lowers both flags
    and leaves the selected history id; clearing twice is clearing once.
    The next run passes the upload handler and the text area before it
    reaches the buttons, so the source text the buttons see is the text
    the text area holds, else the decoded file still in the uploader, else
    empty.  Explain Simply is then refused with its note
    whatever that text is, and nothing is sent or stored.  Generate Audit is
    refused with its warning when that text has fewer than 10 characters
    once stripped, and otherwise sends a request for it: Clear does not
    switch the button off. *)
Theorem clear_then_refused o s w uploaded typed :
  let cleared := on_clear s in
  let s1 := Pages.on_text_area typed (Pages.on_upload uploaded cleared) in
  (cleared
   = {| code_text := []; report := []; simple_report := [];
        audit_done := false; simple_done := false;
        selected_history_id := selected_history_id s |}
   /\ on_clear cleared = cleared)
  /\ (s1
      = set_code_text
          match typed, uploaded with
          | Some text, _ => text
          | None, Some data => Codec.decode_utf8_ignore data
          | None, None => []
          end cleared)
  /\ on_explain o s1 w
     = (s1, emit (st_info (lit "Generate an audit first.")) w)
  /\ ((length (strip (code_text s1)) < 10)%nat ->
      on_generate o s1 w
      = (s1,
         emit (st_warning (lit "Please upload or paste a Solidity contract."))
           w))
  /\ ((10 <= length (strip (code_text s1)))%nat ->
      api_calls (on_generate o s1 w).2
      = api_calls w ++ [page_audit_request (code_text s1)]).
Proof.
  intros cleared s1. split; [split; reflexivity|]. split.
  { unfold s1. destruct typed as [text|], uploaded as [data|]; reflexivity. }
  split.
  { unfold on_explain.
    replace (audit_done s1) with false
      by (unfold s1; destruct typed, uploaded; reflexivity).
    reflexivity. }
  split.
  - intros H. unfold on_generate. apply Nat.ltb_lt in H.
    rewrite H, orb_true_r. reflexivity.
  - intros H. rewrite (on_generate_passing o s1 w H). reflexivity.
Qed.

(** After Clear, with nothing in the uploader and an empty text area, the
    Generate Audit button warns; with the sample contract still in the
    uploader it sends a request for it. *)
Lemma clear_then_refused_witness :
  let s := set_audit_done true
             (set_report Fixtures.sample_report
                (set_code_text Fixtures.sample_code session_defaults)) in
  on_generate Fixtures.calm
    (Pages.on_text_area None (Pages.on_upload None (on_clear s)))
    (Fixtures.fresh ∅)
  = (Pages.on_text_area None (Pages.on_upload None (on_clear s)),
     emit (st_warning (lit "Please upload or paste a Solidity contract."))
       (Fixtures.fresh ∅))
  /\ api_calls
       (on_generate Fixtures.calm
          (Pages.on_text_area None
             (Pages.on_upload (Some (encode_utf8 Fixtures.sample_code))
                (on_clear s)))
          (Fixtures.fresh ∅)).2
     = [page_audit_request
          (Codec.decode_utf8_ignore (encode_utf8 Fixtures.sample_code))].
Proof.
  intros s. split.
  - refine (proj1 (proj2 (proj2 (proj2
              (clear_then_refused Fixtures.calm s (Fixtures.fresh ∅)
                 None None)))) _).
    vm_compute. lia.
  - refine (proj2 (proj2 (proj2 (proj2
              (clear_then_refused Fixtures.calm s (Fixtures.fresh ∅)
                 (Some (encode_utf8 Fixtures.sample_code)) None)))) _).
    vm_compute. lia.
Defined.

(** *** Sidebar *)

Import Pages.



(** X20. Loading the newest entry right after an audit brings back what the
    audit left in the session: source text, report, empty simplified report
    and its flag.  The audit flag comes back on only when the report is not
    empty, and the store is not written. *)
Theorem load_restores_last_audit o s w s0 :
  (10 <= length (strip (code_text s)))%nat ->
  let s1 := (on_generate o s w).1 in
  let w1 := (on_generate o s w).2 in
  exists s2,
    on_load 0 s0 w1
    = Ret (s2, st_success (lit "Loaded this audit into the editor."))
    /\ code_text s2 = code_text s1 /\ report s2 = report s1
    /\ simple_report s2 = simple_report s1
    /\ simple_done s2 = simple_done s1
    /\ audit_done s2 = truthy (report s1)
    /\ selected_history_id s2 = selected_history_id s0.
Proof.
  intros H s1 w1. unfold s1, w1.
  rewrite (on_generate_passing o s w H). cbn zeta. cbn [fst snd].
  unfold on_load, history_at. rewrite add_history_entry_load.
  cbn [lookup list_lookup mbind outcome_bind].
  eexists. split; [reflexivity|]. cbn. repeat split.
Qed.

Lemma load_restores_last_audit_witness :
  let s := set_code_text Fixtures.sample_code session_defaults in
  exists s2,
    on_load 0 session_defaults (on_generate Fixtures.calm s (Fixtures.fresh ∅)).2
    = Ret (s2, st_success (lit "Loaded this audit into the editor."))
    /\ code_text s2 = Fixtures.sample_code.
Proof.
  intros s.
  destruct (load_restores_last_audit Fixtures.calm s (Fixtures.fresh ∅)
              session_defaults) as (s2 & E & C & _).
  - vm_compute. lia.
  - exists s2. split; [exact E|]. rewrite C. reflexivity.
Defined.

(** *** Sending mail, operation by operation *)

Lemma set_smtp_log_same (w : world) : set_smtp_log (smtp_log w ++ []) w = w.
Proof. destruct w. unfold set_smtp_log. cbn. rewrite app_nil_r. reflexivity. Qed.

(** [smtp_session] with the log written out: what is tried, and the answer. *)
Lemma smtp_session_unfolded o host port user pwd m w :
  smtp_session o host port user pwd m w =
  let l := smtp_log w in
  let c := Connect host port in
  match relay o (l ++ [c]) with
  | Some e => (Raise e, set_smtp_log (l ++ [c]) w)
  | None =>
      let '(r, ops) :=
        match relay o (l ++ [c; StartTLS]) with
        | Some e => (Raise e, [c; StartTLS])
        | None =>
            match relay o (l ++ [c; StartTLS; Login user pwd]) with
            | Some e => (Raise e, [c; StartTLS; Login user pwd])
            | None =>
                (match relay o (l ++ [c; StartTLS; Login user pwd;
                                      SendMessage m]) with
                 | Some e => Raise e
                 | None => Ret tt
                 end,
                 [c; StartTLS; Login user pwd; SendMessage m])
            end
        end in
      (match relay o (l ++ ops ++ [Quit]) with
       | Some e => if is_SMTPServerDisconnected e then r else Raise e
       | None => r
       end,
       set_smtp_log (l ++ ops ++ [Quit]) w)
  end.
Proof.
  unfold smtp_session, smtp. cbn zeta.
  cbn [smtp_log set_smtp_log]. rewrite <- ?app_assoc. cbn [app].
  destruct (relay o (smtp_log w ++ [Connect host port])); [reflexivity|].
  destruct (relay o (smtp_log w ++ [Connect host port; StartTLS])).
  { cbn [smtp_log set_smtp_log]. rewrite <- ?app_assoc. cbn [app].
    destruct (relay o _) as [e'|]; [destruct (is_SMTPServerDisconnected e')|];
      reflexivity. }
  cbn [smtp_log set_smtp_log]. rewrite <- ?app_assoc. cbn [app].
  destruct (relay o (smtp_log w ++ [Connect host port; StartTLS;
                                    Login user pwd])).
  { cbn [smtp_log set_smtp_log]. rewrite <- ?app_assoc. cbn [app].
    destruct (relay o _) as [e'|]; [destruct (is_SMTPServerDisconnected e')|];
      reflexivity. }
  cbn [smtp_log set_smtp_log]. rewrite <- ?app_assoc. cbn [app].
  destruct (relay o (smtp_log w ++ [Connect host port; StartTLS;
                                    Login user pwd; SendMessage m]));
    cbn [smtp_log set_smtp_log]; rewrite <- ?app_assoc; cbn [app];
    (destruct (relay o _) as [e'|]; [destruct (is_SMTPServerDisconnected e')|]);
    reflexivity.
Qed.

(** The operations one session adds to the log, with what the relay had
    accepted before each and what it refused last. *)
Lemma smtp_session_ops o host port user pwd m w :
  let full := wire host port user pwd m in
  exists ops,
    (smtp_session o host port user pwd m w).2
    = set_smtp_log (smtp_log w ++ ops) w
    /\ ((ops = take 1 full
         /\ refuses o (smtp_log w ++ take 1 full))
        \/ (ops = take 2 full ++ [Quit]
            /\ accepts o (smtp_log w ++ take 1 full)
            /\ refuses o (smtp_log w ++ take 2 full))
        \/ (ops = take 3 full ++ [Quit]
            /\ accepts o (smtp_log w ++ take 1 full)
            /\ accepts o (smtp_log w ++ take 2 full)
            /\ refuses o (smtp_log w ++ take 3 full))
        \/ (ops = full
            /\ accepts o (smtp_log w ++ take 1 full)
            /\ accepts o (smtp_log w ++ take 2 full)
            /\ accepts o (smtp_log w ++ take 3 full))).
Proof.
  rewrite smtp_session_unfolded. cbv zeta. unfold accepts, refuses, wire.
  cbn [take app].
  destruct (relay o (smtp_log w ++ [Connect host port])) eqn:R1.
  { eexists. split; [reflexivity|]. left.
    split; [reflexivity | first [discriminate | rewrite R1; discriminate]]. }
  destruct (relay o (smtp_log w ++ [Connect host port; StartTLS])) eqn:R2.
  { eexists. split; [reflexivity|]. right. left. split; [reflexivity|].
    split; [first [reflexivity | exact R1]
           | first [discriminate | rewrite R2; discriminate]]. }
  destruct (relay o (smtp_log w ++ [Connect host port; StartTLS;
                                    Login user pwd])) eqn:R3.
  { eexists. split; [reflexivity|]. right. right. left.
    split; [reflexivity|]. split; [first [reflexivity | exact R1]|].
    split; [first [reflexivity | exact R2]
           | first [discriminate | rewrite R3; discriminate]]. }
  eexists. split; [reflexivity|]. right. right. right.
  split; [reflexivity|]. split; [first [reflexivity | exact R1]|].
  split; [first [reflexivity | exact R2] | first [reflexivity | exact R3]].
Qed.

(** The same for one call of [send_email], with the reason when nothing is
    added. *)
Lemma send_email_ops o body to_email subject w :
  exists ops,
    (send_email o body to_email subject w).2
    = set_smtp_log (smtp_log w ++ ops) w
    /\ ((ops = []
         /\ ((exists e, port_setting w = Raise e)
             \/ exists port,
                  port_setting w = Ret port
                  /\ (settings_present w port = false
                      \/ email_policy o
                           (outgoing (getenv w "SMTP_USER" []) to_email
                              subject body)
                         ≠ None)))
        \/ exists port,
             port_setting w = Ret port /\ settings_present w port = true
             /\ email_policy o
                  (outgoing (getenv w "SMTP_USER" []) to_email subject body)
                = None
             /\ let full :=
                  wire (getenv w "SMTP_HOST" []) port (getenv w "SMTP_USER" [])
                    (getenv w "SMTP_PASS" [])
                    (outgoing (getenv w "SMTP_USER" []) to_email subject body) in
                (ops = take 1 full
                 /\ refuses o (smtp_log w ++ take 1 full))
                \/ (ops = take 2 full ++ [Quit]
                    /\ accepts o (smtp_log w ++ take 1 full)
                    /\ refuses o (smtp_log w ++ take 2 full))
                \/ (ops = take 3 full ++ [Quit]
                    /\ accepts o (smtp_log w ++ take 1 full)
                    /\ accepts o (smtp_log w ++ take 2 full)
                    /\ refuses o (smtp_log w ++ take 3 full))
                \/ (ops = full
                    /\ accepts o (smtp_log w ++ take 1 full)
                    /\ accepts o (smtp_log w ++ take 2 full)
                    /\ accepts o (smtp_log w ++ take 3 full))).
Proof.
  unfold send_email. destruct (port_setting w) as [port|e] eqn:P.
  2:{ exists []. rewrite set_smtp_log_same. split; [reflexivity|]. left.
      split; [reflexivity|]. left. exists e.
      first [reflexivity | exact P]. }
  fold (settings_present w port).
  destruct (settings_present w port) eqn:S; cbn [negb].
  2:{ exists []. rewrite set_smtp_log_same. split; [reflexivity|]. left.
      split; [reflexivity|]. right. exists port.
      split; [first [reflexivity | exact P]
             | left; first [reflexivity | exact S]]. }
  fold (outgoing (getenv w "SMTP_USER" []) to_email subject body).
  destruct (email_policy o _) as [e|] eqn:Q.
  { exists []. rewrite set_smtp_log_same. split; [reflexivity|]. left.
    split; [reflexivity|]. right. exists port.
    split; [first [reflexivity | exact P]
           | right; first [discriminate | rewrite Q; discriminate]]. }
  destruct (smtp_session_ops o (getenv w "SMTP_HOST" []) port
              (getenv w "SMTP_USER" []) (getenv w "SMTP_PASS" [])
              (outgoing (getenv w "SMTP_USER" []) to_email subject body) w)
    as (ops & E & Shape).
  exists ops. split.
  - destruct (smtp_session _ _ _ _ _ _ _) as [[u|e] w']; exact E.
  - right. exists port. split; [first [reflexivity | exact P]|].
    split; [first [reflexivity | exact S]|].
    split; [first [reflexivity | exact Q] | exact Shape].
Qed.

(** X21. Whatever the relay answers, one call of [send_email] changes
    nothing in the world but the mail log, and adds to it one of five
    things.  Nothing, when the port does not read as an integer, a setting
    is missing or the email package refuses the message.  The connection
    alone, when the relay refuses it: no session was opened.  The
    connection and STARTTLS, then QUIT, when the relay refuses STARTTLS.
    The connection, STARTTLS and the login, then QUIT, when the relay
    refuses the login.  The connection, STARTTLS, the login and the
    message, then QUIT, when the relay accepted the first three.  So each
    operation is tried only after the relay accepted the one before, the
    password is never sent before STARTTLS was accepted, at most one
    message goes out, and a session that was opened is closed by QUIT. *)
Theorem send_email_wire o body to_email subject w :
  exists ops,
    (send_email o body to_email subject w).2
    = set_smtp_log (smtp_log w ++ ops) w
    /\ ((ops = []
         /\ ((exists e, port_setting w = Raise e)
             \/ exists port,
                  port_setting w = Ret port
                  /\ (settings_present w port = false
                      \/ email_policy o
                           (outgoing (getenv w "SMTP_USER" []) to_email
                              subject body)
                         ≠ None)))
        \/ exists port,
             port_setting w = Ret port /\ settings_present w port = true
             /\ email_policy o
                  (outgoing (getenv w "SMTP_USER" []) to_email subject body)
                = None
             /\ let full :=
                  wire (getenv w "SMTP_HOST" []) port (getenv w "SMTP_USER" [])
                    (getenv w "SMTP_PASS" [])
                    (outgoing (getenv w "SMTP_USER" []) to_email subject body) in
                (ops = take 1 full
                 /\ refuses o (smtp_log w ++ take 1 full))
                \/ (ops = take 2 full ++ [Quit]
                    /\ accepts o (smtp_log w ++ take 1 full)
                    /\ refuses o (smtp_log w ++ take 2 full))
                \/ (ops = take 3 full ++ [Quit]
                    /\ accepts o (smtp_log w ++ take 1 full)
                    /\ accepts o (smtp_log w ++ take 2 full)
                    /\ refuses o (smtp_log w ++ take 3 full))
                \/ (ops = full
                    /\ accepts o (smtp_log w ++ take 1 full)
                    /\ accepts o (smtp_log w ++ take 2 full)
                    /\ accepts o (smtp_log w ++ take 3 full))).
Proof.
  exact (send_email_ops o body to_email subject w).
Qed.

Ltac destruct_quit :=
  match goal with
  | H : context [match relay ?o ?l with _ => _ end] |- _ =>
      let e := fresh "e" in
      destruct (relay o l) as [e|];
      [destruct (is_SMTPServerDisconnected e)|]
  end.

Lemma email_error_is_not_sent (msg : str) : lit "Email error: " ++ msg ≠ lit "sent".
Proof. intros H. vm_compute in H. discriminate H. Qed.

(** X22. [send_email] answers "sent" exactly when nothing raised: the
    settings are there, the email package raises nothing on the message,
    smtplib raises nothing on the connection, STARTTLS, the login and the
    message in turn, and on QUIT it raises nothing or only that the relay
    has hung up.  That is all "sent" says.  It does not say that each
    recipient was accepted: [send_message] returns normally, with the list
    of the refused ones, which the code drops, when the relay refuses some
    recipients and not all. *)
Theorem sent_iff_nothing_raised o body to_email subject w :
  (send_email o body to_email subject w).1 = Ret (lit "sent") <->
  exists port,
    port_setting w = Ret port /\ settings_present w port = true
    /\ let m := outgoing (getenv w "SMTP_USER" []) to_email subject body in
       let full :=
         wire (getenv w "SMTP_HOST" []) port (getenv w "SMTP_USER" [])
           (getenv w "SMTP_PASS" []) m in
       email_policy o m = None
       /\ accepts o (smtp_log w ++ take 1 full)
       /\ accepts o (smtp_log w ++ take 2 full)
       /\ accepts o (smtp_log w ++ take 3 full)
       /\ accepts o (smtp_log w ++ take 4 full)
       /\ (accepts o (smtp_log w ++ full)
           \/ exists e, relay o (smtp_log w ++ full) = Some e
                        /\ is_SMTPServerDisconnected e = true).
Proof.
  unfold send_email, accepts. destruct (port_setting w) as [port|e] eqn:P.
  2:{ split; [discriminate|]. intros (p & Hp & _). discriminate. }
  fold (settings_present w port).
  destruct (settings_present w port) eqn:S; cbn [negb].
  2:{ split.
      - cbn [fst]. intros H. vm_compute in H. discriminate H.
      - intros (p & [= <-] & Hs & _). congruence. }
  fold (outgoing (getenv w "SMTP_USER" []) to_email subject body).
  set (m := outgoing (getenv w "SMTP_USER" []) to_email subject body).
  destruct (email_policy o m) as [e|] eqn:Q.
  { cbn [fst]. split.
    - intros H. apply Ret_inj in H. destruct (email_error_is_not_sent _ H).
    - intros (p & _ & _ & Hq & _). cbv zeta in Hq. congruence. }
  rewrite smtp_session_unfolded. cbv zeta. unfold wire. cbn [take app].
  destruct (relay o (smtp_log w ++ [Connect _ port])) as [e1|] eqn:R1.
  { cbn [fst]. split.
    - intros H. apply Ret_inj in H. destruct (email_error_is_not_sent _ H).
    - intros (p & [= <-] & _ & _ & H1 & _). congruence. }
  destruct (relay o (smtp_log w ++ [Connect _ port; StartTLS])) as [e2|] eqn:R2.
  { cbn [app]. split.
    - intros H. destruct_quit; cbn [fst] in H; apply Ret_inj in H;
        destruct (email_error_is_not_sent _ H).
    - intros (p & [= <-] & _ & _ & _ & H2 & _). congruence. }
  destruct (relay o (smtp_log w ++ [Connect _ port; StartTLS; Login _ _]))
    as [e3|] eqn:R3.
  { cbn [app]. split.
    - intros H. destruct_quit; cbn [fst] in H; apply Ret_inj in H;
        destruct (email_error_is_not_sent _ H).
    - intros (p & [= <-] & _ & _ & _ & _ & H3 & _). congruence. }
  destruct (relay o (smtp_log w ++ [Connect _ port; StartTLS; Login _ _;
                                    SendMessage m])) as [e4|] eqn:R4.
  { cbn [app]. split.
    - intros H. destruct_quit; cbn [fst] in H; apply Ret_inj in H;
        destruct (email_error_is_not_sent _ H).
    - intros (p & [= <-] & _ & _ & _ & _ & _ & H4 & _). congruence. }
  cbn [app].
  destruct (relay o (smtp_log w ++ [Connect _ port; StartTLS; Login _ _;
                                    SendMessage m; Quit])) as [e5|] eqn:R5.
  - destruct (is_SMTPServerDisconnected e5) eqn:D; cbn [fst]; split.
    + intros _. exists port. repeat split; try assumption.
      right. exists e5. split; [first [exact R5 | reflexivity] | exact D].
    + reflexivity.
    + intros H. apply Ret_inj in H. destruct (email_error_is_not_sent _ H).
    + intros (p & [= <-] & _ & _ & _ & _ & _ & _ & [H5 | (e' & H5 & D')]);
        congruence.
  - cbn [fst]. split; [|reflexivity].
    intros _. exists port. repeat split; try assumption.
    left. first [exact R5 | reflexivity].
Qed.

(** X23. A message the email package refuses never reaches the relay: with
    the settings there, [send_email] answers "Email error: " followed by the
    reason and the world is unchanged. *)
Theorem refused_message_is_not_sent o body to_email subject w port e :
  port_setting w = Ret port -> settings_present w port = true ->
  email_policy o (outgoing (getenv w "SMTP_USER" []) to_email subject body)
  = Some e ->
  send_email o body to_email subject w
  = (Ret (lit "Email error: " ++ exc_msg e), w).
Proof.
  intros P S Q. unfold send_email. rewrite P.
  fold (settings_present w port). rewrite S. cbn [negb].
  fold (outgoing (getenv w "SMTP_USER" []) to_email subject body).
  rewrite Q. reflexivity.
Qed.

(** *** Uploads and UTF-8 *)

Import Codec.

Lemma to_N_to_byte (n : N) : n < 256 -> Byte.to_N (to_byte n) = n.
Proof.
  intros H. unfold to_byte. rewrite N.mod_small by exact H.
  destruct (Byte.of_N n) as [b|] eqn:E.
  - cbn. apply Byte.to_of_N. exact E.
  - apply Byte.of_N_None_iff in E. lia.
Qed.

Ltac small p := repeat (destruct p as [p|p|]; try reflexivity; try lia).

Lemma lor_128 (x : N) : x < 64 -> N.lor 128 x = 128 + x.
Proof. intros H. destruct x as [|p]; [reflexivity|]. small p. Qed.

Lemma lor_192 (x : N) : x < 32 -> N.lor 192 x = 192 + x.
Proof. intros H. destruct x as [|p]; [reflexivity|]. small p. Qed.

Lemma lor_224 (x : N) : x < 16 -> N.lor 224 x = 224 + x.
Proof. intros H. destruct x as [|p]; [reflexivity|]. small p. Qed.

Lemma lor_240 (x : N) : x < 8 -> N.lor 240 x = 240 + x.
Proof. intros H. destruct x as [|p]; [reflexivity|]. small p. Qed.

Lemma land_63 (x : N) : N.land x 63 = x mod 64.
Proof. change 63 with (N.ones 6). apply N.land_ones. Qed.

Lemma shiftr_6 (x : N) : N.shiftr x 6 = x / 64.
Proof. apply N.shiftr_div_pow2. Qed.
Lemma shiftr_12 (x : N) : N.shiftr x 12 = x / 64 / 64.
Proof. rewrite N.shiftr_div_pow2, N.Div0.div_div. reflexivity. Qed.
Lemma shiftr_18 (x : N) : N.shiftr x 18 = x / 64 / 64 / 64.
Proof. rewrite N.shiftr_div_pow2, !N.Div0.div_div. reflexivity. Qed.

Lemma div64_facts (c : N) :
  c = 64 * (c / 64) + c mod 64 /\ 0 <= c mod 64 < 64 /\ 0 <= c / 64.
Proof.
  split; [apply N.div_mod'|]. split; [|apply N.le_0_l].
  split; [apply N.le_0_l | apply N.mod_upper_bound; discriminate].
Qed.

Ltac div64 c :=
  let H := fresh "D" in let B := fresh "B" in
  let P := fresh "P" in
  destruct (div64_facts c) as (H & B & P).

Lemma encode_char_bytes (c : N) :
  c < 1114112 ->
  map Byte.to_N (encode_char c) =
  if c <? 128 then [c]
  else if c <? 2048 then [192 + c / 64; 128 + c mod 64]
  else if c <? 65536 then
    [224 + c / 64 / 64; 128 + (c / 64) mod 64; 128 + c mod 64]
  else
    [240 + c / 64 / 64 / 64; 128 + (c / 64 / 64) mod 64;
     128 + (c / 64) mod 64; 128 + c mod 64].
Proof.
  intros H. unfold encode_char.
  div64 c. div64 (c / 64). div64 (c / 64 / 64).
  rewrite ?shiftr_6, ?shiftr_12, ?shiftr_18, ?land_63.
  destruct (N.ltb_spec c 128). { cbn [map]. rewrite to_N_to_byte by lia. reflexivity. }
  destruct (N.ltb_spec c 2048).
  { cbn [map]. rewrite lor_192 by lia. rewrite lor_128 by lia.
    rewrite !to_N_to_byte by lia. reflexivity. }
  destruct (N.ltb_spec c 65536).
  { cbn [map]. rewrite lor_224, !lor_128 by lia.
    rewrite !to_N_to_byte by lia. reflexivity. }
  cbn [map]. rewrite lor_240, !lor_128 by lia.
  rewrite !to_N_to_byte by lia. reflexivity.
Qed.

Ltac tests :=
  repeat match goal with
    | |- context [?a <? ?b] => destruct (N.ltb_spec a b); try lia
    | |- context [?a <=? ?b] => destruct (N.leb_spec a b); try lia
    | |- context [?a =? ?b] => destruct (N.eqb_spec a b); try lia
    end.

Lemma is_scalar_spec (c : N) :
  is_scalar c = true <-> c < 1114112 /\ (c < 55296 \/ 57343 < c).
Proof.
  unfold is_scalar. tests; cbn; split; try lia; try discriminate; try tauto.
Qed.

Lemma decode_encoded_char (c : N) (rest : list N) :
  is_scalar c = true ->
  decode_bytes (map Byte.to_N (encode_char c) ++ rest) = c :: decode_bytes rest.
Proof.
  intros S. apply is_scalar_spec in S as [H NS].
  rewrite (encode_char_bytes c H).
  div64 c. div64 (c / 64). div64 (c / 64 / 64).
  destruct (N.ltb_spec c 128).
  { cbn [app decode_bytes]. tests. reflexivity. }
  destruct (N.ltb_spec c 2048).
  { cbn [app decode_bytes]. unfold is_continuation. tests.
    cbn [andb]. f_equal. lia. }
  destruct (N.ltb_spec c 65536).
  { cbn [app decode_bytes]. unfold second_of_3, is_continuation. tests;
      cbn [andb negb]; f_equal; lia. }
  cbn [app decode_bytes]. unfold second_of_4, is_continuation. tests;
    cbn [andb negb]; f_equal; lia.
Qed.

Lemma decode_encode_text (s : str) :
  Forall (fun c => is_scalar c = true) s ->
  decode_utf8_ignore (encode_utf8 s) = s.
Proof.
  unfold decode_utf8_ignore, encode_utf8.
  induction 1 as [|c s Hc Hs IH]; [reflexivity|].
  cbn [flat_map]. rewrite map_app, decode_encoded_char by exact Hc.
  f_equal. exact IH.
Qed.

Lemma second_of_3_spec (b0 b1 : N) :
  second_of_3 b0 b1 = true ->
  128 <= b1 <= 191 /\ (b0 = 224 -> 160 <= b1) /\ (b0 = 237 -> b1 < 160).
Proof.
  unfold second_of_3, is_continuation. tests; cbn; intros; try discriminate; lia.
Qed.

Lemma second_of_4_spec (b0 b1 : N) :
  second_of_4 b0 b1 = true ->
  128 <= b1 <= 191 /\ (b0 = 240 -> 144 <= b1) /\ (b0 = 244 -> b1 < 144).
Proof.
  unfold second_of_4, is_continuation. tests; cbn; intros; try discriminate; lia.
Qed.

Lemma is_continuation_spec (b : N) : is_continuation b = true -> 128 <= b <= 191.
Proof. unfold is_continuation. tests; cbn; intros; try discriminate; lia. Qed.

Lemma decode_bytes_scalar_upto (n : nat) :
  forall bs, (length bs <= n)%nat ->
  Forall (fun c => is_scalar c = true) (decode_bytes bs).
Proof.
  induction n as [|n IH]; intros bs Hlen.
  { destruct bs; [constructor | cbn in Hlen; lia]. }
  destruct bs as [|b0 r0]; [constructor|].
  cbn [length] in Hlen. cbn [decode_bytes].
  assert (I0 : Forall (fun c => is_scalar c = true) (decode_bytes r0))
    by (apply IH; lia).
  destruct (N.ltb_spec b0 128).
  { constructor; [|exact I0]. apply is_scalar_spec. lia. }
  destruct (N.ltb_spec b0 194); [exact I0|].
  destruct r0 as [|b1 r1]; [repeat destruct (_ <? _); constructor|].
  cbn [length] in Hlen.
  assert (I1 : Forall (fun c => is_scalar c = true) (decode_bytes r1))
    by (apply IH; lia).
  destruct (N.ltb_spec b0 224).
  { destruct (is_continuation b1) eqn:C1; [|exact I0].
    apply is_continuation_spec in C1.
    constructor; [|exact I1]. apply is_scalar_spec. lia. }
  destruct (N.ltb_spec b0 240).
  { destruct (second_of_3 b0 b1) eqn:C1; [|exact I0].
    apply second_of_3_spec in C1.
    destruct r1 as [|b2 r2]; [constructor|]. cbn [length] in Hlen.
    destruct (is_continuation b2) eqn:C2; [|exact I1].
    apply is_continuation_spec in C2.
    constructor; [|apply IH; lia]. apply is_scalar_spec. lia. }
  destruct (N.ltb_spec b0 245); [|exact I0].
  destruct (second_of_4 b0 b1) eqn:C1; [|exact I0].
  apply second_of_4_spec in C1.
  destruct r1 as [|b2 r2]; [constructor|]. cbn [length] in Hlen.
  destruct (is_continuation b2) eqn:C2; [|exact I1].
  apply is_continuation_spec in C2.
  assert (I2 : Forall (fun c => is_scalar c = true) (decode_bytes r2))
    by (apply IH; lia).
  destruct r2 as [|b3 r3]; [constructor|]. cbn [length] in Hlen.
  destruct (is_continuation b3) eqn:C3; [|exact I2].
  apply is_continuation_spec in C3.
  constructor; [|apply IH; lia]. apply is_scalar_spec. lia.
Qed.

Lemma decode_bytes_length_upto (n : nat) :
  forall bs, (length bs <= n)%nat -> (length (decode_bytes bs) <= length bs)%nat.
Proof.
  induction n as [|n IH]; intros bs Hlen.
  { destruct bs; [cbn; lia | cbn in Hlen; lia]. }
  destruct bs as [|b0 r0]; [cbn; lia|].
  cbn [length] in Hlen. cbn [decode_bytes].
  pose proof (IH r0 ltac:(lia)) as I0.
  destruct r0 as [|b1 r1].
  { repeat destruct (_ <? _); cbn; lia. }
  cbn [length] in Hlen, I0 |- *. pose proof (IH r1 ltac:(lia)) as I1.
  destruct r1 as [|b2 r2].
  { repeat first [destruct (_ <? _) | destruct (is_continuation _)
                 | destruct (second_of_3 _ _) | destruct (second_of_4 _ _)];
      cbn [length] in *; lia. }
  cbn [length] in Hlen, I1 |- *. pose proof (IH r2 ltac:(lia)) as I2.
  destruct r2 as [|b3 r3].
  { repeat first [destruct (_ <? _) | destruct (is_continuation _)
                 | destruct (second_of_3 _ _) | destruct (second_of_4 _ _)];
      cbn [length] in *; lia. }
  cbn [length] in Hlen, I2 |- *. pose proof (IH r3 ltac:(lia)) as I3.
  repeat first [destruct (_ <? _) | destruct (is_continuation _)
               | destruct (second_of_3 _ _) | destruct (second_of_4 _ _)];
    cbn [length] in *; lia.
Qed.

(** The decoder on broken data: a stray continuation byte, an overlong
    form, a surrogate, a sequence cut by a letter, one cut by the end. *)
Example decode_broken_data :
  decode_bytes [128; 65] = [65]
  /\ decode_bytes [192; 128; 66] = [66]
  /\ decode_bytes [237; 160; 128; 67] = [67]
  /\ decode_bytes [240; 159; 65; 66] = [65; 66]
  /\ decode_bytes [68; 226; 157] = [68]
  /\ decode_bytes [226; 157; 140] = [10060].
Proof. repeat split. Qed.

(** X24. Text made of Unicode scalar values survives the trip through
    UTF-8: decoding the encoding of a text gives the text back, so a file
    saved as UTF-8 arrives in the editor unchanged. *)
Theorem utf8_round_trip (s : str) :
  Forall (fun c => is_scalar c = true) s ->
  decode_utf8_ignore (encode_utf8 s) = s.
Proof. apply decode_encode_text. Qed.

Lemma utf8_round_trip_witness :
  decode_utf8_ignore (encode_utf8 ([233; 10060; 128512] ++ Fixtures.sample_code))
  = [233; 10060; 128512] ++ Fixtures.sample_code.
Proof.
  apply utf8_round_trip. apply all_scalar. reflexivity.
Defined.

(** X25. Whatever bytes come in, the decoder gives Unicode scalar values
    only, never a surrogate and never a code point past U+10FFFF, and no
    more characters than there were bytes: bad bytes are dropped, nothing is
    made up. *)
Theorem decode_yields_scalars (data : list Byte.byte) :
  Forall (fun c => is_scalar c = true) (decode_utf8_ignore data)
  /\ (length (decode_utf8_ignore data) <= length data)%nat.
Proof.
  unfold decode_utf8_ignore. split.
  - apply (decode_bytes_scalar_upto (length (map Byte.to_N data))). lia.
  - pose proof (decode_bytes_length_upto _ (map Byte.to_N data) (le_n _)) as L.
    rewrite length_map in L. exact L.
Qed.

(** X26. An upload never replaces text that is already in the editor; into
    an empty editor it puts the decoded file, which is the text itself for a
    file in UTF-8; and when the editor held scalar values only, it still
    does after the upload, whatever the file. *)
Theorem upload_fills_empty_editor uploaded s :
  (code_text s ≠ [] -> on_upload uploaded s = s)
  /\ (forall t, code_text s = [] ->
        Forall (fun c => is_scalar c = true) t ->
        code_text (on_upload (Some (encode_utf8 t)) s) = t)
  /\ (Forall (fun c => is_scalar c = true) (code_text s) ->
      Forall (fun c => is_scalar c = true) (code_text (on_upload uploaded s))).
Proof.
  split; [|split].
  - intros H. unfold on_upload. destruct uploaded as [data|]; [|reflexivity].
    destruct (code_text s); [congruence | reflexivity].
  - intros t E Ht. unfold on_upload. rewrite E. cbn.
    apply decode_encode_text, Ht.
  - intros H. unfold on_upload. destruct uploaded as [data|]; [|exact H].
    destruct (truthy (code_text s)); cbn [negb]; [exact H|]. cbn.
    unfold decode_utf8_ignore.
    apply (decode_bytes_scalar_upto (length (map Byte.to_N data))). lia.
Qed.

Lemma upload_fills_empty_editor_witness :
  code_text (on_upload (Some (encode_utf8 Fixtures.sample_code)) session_defaults)
  = Fixtures.sample_code.
Proof.
  refine (proj1 (proj2 (upload_fills_empty_editor None session_defaults))
            Fixtures.sample_code eq_refl _).
  apply all_scalar. reflexivity.
Defined.

(** *** The email form *)

Lemma email_body_choice version s w :
  (email_body version s w).1 = chosen_version version s
  /\ smtp_log (email_body version s w).2 = smtp_log w
  /\ environ (email_body version s w).2 = environ w.
Proof.
  unfold email_body, chosen_version.
  destruct (startswith version (lit "Simplified"));
    destruct (truthy (simple_report s)); repeat split.
Qed.

Lemma on_submit_email_world o to_email subject version s w :
  to_email ≠ [] ->
  (on_submit_email o to_email subject version s w).2
  = (send_email o (chosen_version version s) to_email subject
       (email_body version s w).2).2.
Proof.
  intros H. unfold on_submit_email.
  destruct to_email as [|c t]; [congruence|]. cbn [truthy negb].
  destruct (email_body_choice version s w) as (B & _ & _).
  destruct (email_body version s w) as [body w0]. cbn [fst snd] in *.
  subst body.
  destruct (send_email o _ _ _ w0) as [[status|e] w1]; [|reflexivity].
  destruct (bool_decide _); reflexivity.
Qed.

(** X27. With no recipient the form only warns and nothing reaches the
    relay.  With one, the only message a submission can add to the mail log
    goes to that recipient with that subject and carries, as text and as
    attachment, the chosen version: the simplified report when it was asked
    for and exists, the original report otherwise. *)
Theorem email_form_sends_choice o to_email subject version s w :
  (to_email = [] ->
   on_submit_email o to_email subject version s w
   = (Ret None, emit (st_warning (lit "Enter a recipient email.")) w))
  /\ (to_email ≠ [] ->
      forall m,
        SendMessage m ∈ smtp_log (on_submit_email o to_email subject version s w).2 ->
        SendMessage m ∈ smtp_log w
        \/ (msg_to m = to_email /\ msg_subject m = subject
            /\ msg_content m = chosen_version version s
            /\ msg_attachment m = encode_utf8 (chosen_version version s))).
Proof.
  split; [intros ->; reflexivity|].
  intros H m Hm. rewrite (on_submit_email_world o _ _ _ _ _ H) in Hm.
  destruct (email_body_choice version s w) as (_ & L & _).
  destruct (send_email_ops o (chosen_version version s) to_email subject
              (email_body version s w).2) as (ops & E & Shape).
  rewrite E in Hm. cbn [smtp_log set_smtp_log] in Hm. rewrite L in Hm.
  apply elem_of_app in Hm as [Hm|Hm]; [left; exact Hm|]. right.
  destruct Shape as [[-> _] | (port & _ & _ & _ & Shape)]; [inversion Hm|].
  unfold wire in Shape. cbn [take app] in Shape.
  destruct Shape as [[-> _] | [[-> _] | [[-> _] | [-> _]]]];
    repeat (apply elem_of_cons in Hm as [Hm|Hm]; [try discriminate Hm|]);
    try (inversion Hm; fail).
  injection Hm as ->. repeat split.
Qed.

(** The simplified version asked for and there: the message that goes out
    carries it, not the original report. *)
Lemma email_form_sends_choice_witness :
  let s := set_simple_report (lit "In short: the contract is fine.")
             (set_report Fixtures.sample_report session_defaults) in
  let w := Fixtures.fresh Scenes.env_full in
  let m := outgoing (lit "auditor") (lit "dev@example.com")
             (lit "Smart Contract Audit Report")
             (lit "In short: the contract is fine.") in
  SendMessage m ∈ smtp_log w
  \/ (msg_to m = lit "dev@example.com"
      /\ msg_subject m = lit "Smart Contract Audit Report"
      /\ msg_content m
         = chosen_version (lit "Simplified (if available)") s
      /\ msg_attachment m
         = encode_utf8 (chosen_version (lit "Simplified (if available)") s)).
Proof.
  intros s w m.
  refine (proj2 (email_form_sends_choice Fixtures.calm (lit "dev@example.com")
                   (lit "Smart Contract Audit Report")
                   (lit "Simplified (if available)") s w) _ m _).
  - discriminate.
  - vm_compute. do 3 apply list_elem_of_further. apply list_elem_of_here.
Defined.

(** A delivery with all settings there: five operations, and "sent". *)
Example delivery_in_full :
  let w := Fixtures.fresh Scenes.env_full in
  let r := send_email Fixtures.calm Fixtures.sample_report
             (lit "dev@example.com") (lit "Smart Contract Audit Report") w in
  r.1 = Ret (lit "sent")
  /\ smtp_log r.2
     = wire (lit "smtp.example.com") 2525 (lit "auditor") (lit "secret")
         (outgoing (lit "auditor") (lit "dev@example.com")
            (lit "Smart Contract Audit Report") Fixtures.sample_report).
Proof. vm_compute. split; reflexivity. Qed.

(** A subject with a line feed is refused by the email package. *)
Lemma refused_message_is_not_sent_witness :
  let w := Fixtures.fresh Scenes.env_full in
  send_email Scenes.strict Fixtures.sample_report (lit "dev@example.com")
    (lit "Audit" ++ [10] ++ lit "Bcc: all@example.com") w
  = (Ret (lit "Email error: Header values may not contain linefeed or carriage return characters"),
     w).
Proof.
  intros w.
  refine (refused_message_is_not_sent Scenes.strict Fixtures.sample_report
            (lit "dev@example.com")
            (lit "Audit" ++ [10] ++ lit "Bcc: all@example.com") w 2525%Z
            {| exc_cls := ValueError;
               exc_msg := lit "Header values may not contain linefeed or carriage return characters" |}
            _ _ _); vm_compute; reflexivity.
Defined.

(** *** Session defaults *)

Lemma fill_defaults_union (items : list (string * value))
    (state : gmap string value) :
  fill_defaults items state = state ∪ list_to_map items.
Proof.
  revert state. induction items as [|[k v] items IH]; intros state.
  - cbn. apply map_eq. intros i.
    rewrite lookup_union, lookup_empty. destruct (state !! i); reflexivity.
  - unfold fill_defaults in *. cbn [foldl fst snd]. rewrite IH.
    cbn [list_to_map foldr]. apply map_eq. intros i.
    destruct (state !! k) as [x|] eqn:K;
      rewrite !lookup_union, ?lookup_insert; cbn [fst snd];
      (destruct (decide (k = i)) as [<-|N]; [rewrite K|]);
      try reflexivity; destruct (list_to_map items !! k); reflexivity.
Qed.

(** X28. The defaults only fill what is missing: a key the session already
    has keeps its value across reruns, a missing one of the six gets its
    default, any other key is left as it is, and running the loop again
    changes nothing. *)
Theorem session_defaults_fill_missing (state : gmap string value) :
  (forall k v, state !! k = Some v -> init_session_state state !! k = Some v)
  /\ (forall k, state !! k = None ->
        init_session_state state !! k
        = (list_to_map session_default_items : gmap string value) !! k)
  /\ (forall k, k ∉ session_default_items.*1 ->
        init_session_state state !! k = state !! k)
  /\ init_session_state (init_session_state state) = init_session_state state.
Proof.
  unfold init_session_state. rewrite !fill_defaults_union.
  split; [|split; [|split]].
  - intros k v H. rewrite lookup_union, H.
    destruct (list_to_map session_default_items !! k); reflexivity.
  - intros k H. rewrite lookup_union, H.
    destruct (list_to_map session_default_items !! k); reflexivity.
  - intros k H. rewrite lookup_union.
    rewrite (not_elem_of_list_to_map_1 _ _ H).
    destruct (state !! k); reflexivity.
  - apply map_eq. intros i. rewrite !lookup_union.
    destruct (state !! i);
      destruct (list_to_map session_default_items !! i); reflexivity.
Qed.

Lemma session_defaults_fill_missing_witness :
  init_session_state {[ "report" := VStr Fixtures.sample_report ]} !! "report"
  = Some (VStr Fixtures.sample_report).
Proof.
  refine (proj1 (session_defaults_fill_missing
                   {[ "report" := VStr Fixtures.sample_report ]}) "report" _ _).
  apply lookup_singleton_eq.
Defined.
